(** * Glacier tools: generate/upload, restore status, restore request

    A shallow embedding of the three scripts
    [glacier-generate-dummy-files.py], [glacier-restore-status.py] and
    [glacier-restore.py].

    - Python [str] is [string]; [x in s] on strings is [contains x s].
    - A boto3 call either returns or raises; [ClientError] is told apart
      from every other [Exception] because [glacier-restore.py] catches
      it separately.
    - The S3 service is an oracle [S3.client]: what it answers to each request.
      A worker's run is its outcome together with the requests it sent.
    - [as_completed] hands the futures back in completion order, which is
      some rearrangement of the submitted futures; the pool itself is
      created only for a positive number of workers.
    - [logging] calls and [print] have no influence on control flow and
      are left out; what [print] would show is the value a tool returns. *)

From Stdlib Require Import ZArith QArith Ascii String DecimalString DecimalNat.
From stdpp Require Import gmap strings list fin_maps fin_sets.

#[local] Set Warnings "-clear-no-such-hyp".

Local Open Scope Z_scope.

(** ** Python strings *)

Module PyStr.

(** The double-quote character, ASCII 34. *)
Definition dquote : string := String (ascii_of_nat 34) EmptyString.

(** [s.startswith(p)] *)
Fixpoint startswith (p s : string) : bool :=
  match p, s with
  | EmptyString, _ => true
  | String a p', String b s' => Ascii.eqb a b && startswith p' s'
  | String _ _, EmptyString => false
  end.

(** [sub in s]: [sub] occurs in [s] as a contiguous run of characters. *)
Fixpoint contains (sub s : string) : bool :=
  startswith sub s ||
  match s with
  | EmptyString => false
  | String _ s' => contains sub s'
  end.

(** Truth value of [obj.get(...)] when the value is a string or missing:
    [None] and the empty string are false. *)
Definition truthy (o : option string) : bool :=
  match o with
  | Some (String _ _) => true
  | Some EmptyString | None => false
  end.

(** [sub in o] under the guard [if o:], for a value that may be missing. *)
Definition contains_opt (sub : string) (o : option string) : bool :=
  match o with
  | Some s => contains sub s
  | None => false
  end.

(** [x in [a, b, ...]] where [x] may be [None]. *)
Definition in_list (x : option string) (l : list string) : bool :=
  match x with
  | Some s => existsb (String.eqb s) l
  | None => false
  end.

End PyStr.

Import PyStr.

(** ** Exceptions, remote requests and the S3 client *)

(** [glacier-restore.py] catches [ClientError] apart from [Exception];
    each carries [str(e)]. *)
Inductive exn :=
  | ClientError (error_str : string)
  | OtherException (error_str : string).

Inductive outcome (A : Type) :=
  | Returns (a : A)
  | Raises (e : exn).
Arguments Returns {A} a.
Arguments Raises {A} e.

Global Instance outcome_ret : MRet outcome := λ A a, Returns a.
Global Instance outcome_bind : MBind outcome := λ A B k m,
  match m with
  | Returns a => k a
  | Raises e => Raises e
  end.

(** Exit status of the interpreter: 0 when the script runs to its end,
    1 when an exception reaches the top level. *)
Definition exit_status {A} (o : outcome A) : Z :=
  match o with
  | Returns _ => 0
  | Raises _ => 1
  end.

(** The requests the tools send. *)
Inductive call :=
  | HeadObject (Bucket Key : string)
  | RestoreObject (Bucket Key : string) (Days : Z) (Tier : string)
  | UploadFile (Filename Bucket Key StorageClass : string).

Definition is_restore_call (c : call) : bool :=
  match c with
  | RestoreObject _ _ _ _ => true
  | _ => false
  end.

(** The response dictionary of [head_object]; a missing key is [None]. *)
Record head_response := {
  Restore : option string;
  StorageClass : option string;
  ContentLength : option Z
}.

(** One entry of a listing page's [Contents]. *)
Record list_entry := {
  Key : string;
  Size : option Z;
  EntryStorageClass : option string
}.

(** What the service answers. [restore_object n] is the answer to the
    request that follows [n] earlier restore requests for the same object,
    so a second request may be answered differently from the first even
    when it asks the same. A listing page is its [Contents], if any. *)
Module S3.
Record client := {
  head_object : string → string → outcome head_response;
  restore_object : nat → string → string → Z → string → outcome unit;
  upload_file : string → string → string → string → outcome unit;
  list_objects_v2 : string → string → list (option (list list_entry))
}.
End S3.

(** A piece of code that sends requests: its outcome and the requests it
    sent, in order. *)
Definition run (A : Type) : Type := outcome A * list call.

Global Instance run_ret : MRet run := λ A a, (Returns a, []).
Global Instance run_bind : MBind run := λ A B k m,
  match m with
  | (Returns a, sent) => let '(r, sent') := k a in (r, sent ++ sent')
  | (Raises e, sent) => (Raises e, sent)
  end.

Definition request {A} (c : call) (answer : outcome A) : run A := (answer, [c]).

(** [ThreadPoolExecutor(max_workers=n)]: the constructor raises
    [ValueError] unless [n] is positive; no task is submitted then. *)
Definition ThreadPoolExecutor (max_workers : Z) : outcome unit :=
  if max_workers <=? 0
  then Raises (OtherException "max_workers must be greater than 0")
  else Returns ().

(** [future.result()] *)
Definition result {A} (future : run A) : outcome A := future.1.

(** [try: body except ...: handler]; a handler that does not match the
    exception lets it through. *)
Definition try_except {A} (body : run A) (handler : exn → option (run A)) : run A :=
  match body with
  | (Returns a, sent) => (Returns a, sent)
  | (Raises e, sent) =>
      match handler e with
      | Some h => let '(r, sent') := h in (r, sent ++ sent')
      | None => (Raises e, sent)
      end
  end.

Definition except_Exception {A} (h : exn → run A) : exn → option (run A) :=
  λ e, Some (h e).

Definition except_ClientError {A} (h : string → run A) : exn → option (run A) :=
  λ e, match e with
       | ClientError error_str => Some (h error_str)
       | OtherException _ => None
       end.

(** ** Dictionaries and counters *)

(** [d[k]] on a [dict]: a missing key raises [KeyError]. *)
Definition getitem (d : gmap string Z) (k : string) : outcome Z :=
  match d !! k with
  | Some v => Returns v
  | None => Raises (OtherException "KeyError")
  end.

(** [d[k] += v] on a [dict]. *)
Definition iadd (k : string) (v : Z) (d : gmap string Z) : outcome (gmap string Z) :=
  x ← getitem d k; mret (<[k := x + v]> d).

(** [c[k] += v] on a [collections.Counter]: a missing key counts as 0. *)
Definition counter_iadd (k : string) (v : Z) (c : gmap string Z) : gmap string Z :=
  <[k := default 0 (c !! k) + v]> c.

(** [c[k]] on a [Counter]. *)
Definition counter_get (c : gmap string Z) (k : string) : Z := default 0 (c !! k).

(** Sum of all the values of a dictionary. *)
Definition sum_values (c : gmap string Z) : Z :=
  map_fold (λ _ v acc, v + acc) 0 c.

(** [sum(size for _, size in objects)] *)
Definition sum_sizes (objects : list (string * Z)) : Z :=
  foldr (λ o acc, o.2 + acc) 0 objects.

(** ** glacier-restore-status.py *)

Module RestoreStatus.

Record Args := { bucket : string; prefix : string; threads : Z }.

(** The two markers looked for in the [Restore] field. *)
Definition ongoing_false : string :=
  "ongoing-request=" +:+ dquote +:+ "false" +:+ dquote.
Definition ongoing_true : string :=
  "ongoing-request=" +:+ dquote +:+ "true" +:+ dquote.

Definition check_restore_status (s3 : S3.client) (bucket key : string)
  : run (string * string * Z) :=
  try_except
    (obj ← request (HeadObject bucket key) (S3.head_object s3 bucket key);
     let restore_field := Restore obj in
     let size := default 0 (ContentLength obj) in
     if truthy restore_field then
       if contains_opt ongoing_false restore_field then
         mret (key, "Completed", size)
       else if contains_opt ongoing_true restore_field then
         mret (key, "In Progress", size)
       else
         mret (key, "Not Started", size)
     else
       mret (key, "Not Started", size))
    (except_Exception (λ e, mret (key, "Error", 0))).

(** The listing loop: the prefix itself, empty entries and entries without
    a storage class are skipped. *)
Definition list_objects (pages : list (option (list list_entry))) (prefix : string)
  : list (string * Z) :=
  page ← pages;
  obj ← default [] page;
  let key := Key obj in
  let size := default 0 (Size obj) in
  if String.eqb key prefix || (size =? 0) || negb (bool_decide (is_Some (EntryStorageClass obj)))
  then []
  else [(key, size)].

(** The four statuses [check_restore_status] can give. *)
Definition statuses : list string :=
  ["Completed"; "In Progress"; "Not Started"; "Error"].

Definition initial_summary : gmap string Z :=
  <["Completed" := 0]> (<["In Progress" := 0]> (<["Not Started" := 0]>
  (<["Error" := 0]> (<["Total" := 0]> (<["RestoredSize" := 0]>
  (<["TotalSize" := 0]> ∅)))))).

(** The body of [for future in as_completed(futures)]. *)
Fixpoint collect (done : list (run (string * string * Z))) (summary : gmap string Z)
  : outcome (gmap string Z) :=
  match done with
  | [] => mret summary
  | future :: done =>
      '(key, status, restored_bytes) ← result future;
      summary ← iadd status 1 summary;
      summary ← (if String.eqb status "Completed"
                 then iadd "RestoredSize" restored_bytes summary
                 else mret summary);
      collect done summary
  end.

(** [a / b] on integers: true division, here on exact rationals. *)
Definition truediv (a b : Z) : outcome Q :=
  if b =? 0 then Raises (OtherException "ZeroDivisionError")
  else Returns (inject_Z a / inject_Z b)%Q.

(** [(summary['Completed'] / summary['Total']) * 100 if summary['Total'] else 0] *)
Definition percent_complete (summary : gmap string Z) : outcome Q :=
  total ← getitem summary "Total";
  if negb (total =? 0) then
    completed ← getitem summary "Completed";
    total ← getitem summary "Total";
    q ← truediv completed total;
    mret (q * inject_Z 100)%Q
  else
    mret (inject_Z 0).

Section Pool.

(** The order in which the pool hands back the submitted futures. *)
Context (as_completed : list (run (string * string * Z)) → list (run (string * string * Z))).

(** What the tool prints: the counters and the percentage. *)
Definition summarize_restore_status (s3 : S3.client) (args : Args)
  : outcome (gmap string Z * Q) :=
  let pages := S3.list_objects_v2 s3 (bucket args) (prefix args) in
  let summary := initial_summary in
  let objects := list_objects pages (prefix args) in
  let summary := <["Total" := Z.of_nat (length objects)]> summary in
  let summary := <["TotalSize" := sum_sizes objects]> summary in
  executor ← ThreadPoolExecutor (threads args);
  let futures := (λ o, check_restore_status s3 (bucket args) o.1) <$> objects in
  summary ← collect (as_completed futures) summary;
  percent ← percent_complete summary;
  mret (summary, percent).

End Pool.

End RestoreStatus.

(** ** glacier-restore.py *)

Module Restore.

Record Args := {
  bucket : string;
  prefix : string;
  days : Z;
  tier : string;
  threads : Z
}.

Definition ongoing_true : string :=
  "ongoing-request=" +:+ dquote +:+ "true" +:+ dquote.
Definition ongoing_false : string :=
  "ongoing-request=" +:+ dquote +:+ "false" +:+ dquote.

Definition glacier_classes : list string :=
  ["GLACIER"; "DEEP_ARCHIVE"; "GLACIER_IR"].

(** Step 1 of [check_and_restore_object]: [Some r] when the function
    returns [r] from inside the [try], [None] when control leaves the
    [try] (or its handler) and goes on to step 2. *)
Definition check_current_status (s3 : S3.client) (bucket key : string) (tier : string)
  : run (option (string * string * option string)) :=
  try_except
    (obj ← request (HeadObject bucket key) (S3.head_object s3 bucket key);
     let restore_field := Restore obj in
     let storage_class := StorageClass obj in
     if negb (in_list storage_class glacier_classes) then
       mret (Some (key, "Not Eligible", None))
     else if truthy restore_field then
       if contains_opt ongoing_true restore_field then
         mret (Some (key, "In Progress", Some tier))
       else if contains_opt ongoing_false restore_field then
         mret (Some (key, "Completed", Some tier))
       else
         mret None
     else
       mret None)
    (except_Exception (λ e, mret None)).

(** Step 2: the restore request with the user's tier, then the fallback. *)
Definition try_to_restore (s3 : S3.client) (bucket key : string) (days : Z) (tier : string)
  : run (string * string * option string) :=
  try_except
    (_ ← request (RestoreObject bucket key days tier)
                 (S3.restore_object s3 0 bucket key days tier);
     mret (key, "Requested", Some tier))
    (except_ClientError (λ error_str,
       if contains "rate of expedited retrievals" error_str
          || contains "is not allowed" error_str
          || contains "cannot be expedited" error_str then
         try_except
           (_ ← request (RestoreObject bucket key days "Standard")
                        (S3.restore_object s3 1 bucket key days "Standard");
            mret (key, "Requested", Some "Standard"))
           (except_Exception (λ ex, mret (key, "Failed", Some "Standard")))
       else if contains "already in progress" error_str then
         mret (key, "In Progress", Some tier)
       else if contains "RestoreAlreadyInProgress" error_str then
         mret (key, "In Progress", Some tier)
       else if contains "Object restore is not allowed" error_str then
         mret (key, "Not Eligible", None)
       else
         mret (key, "Failed", Some tier))).

Definition check_and_restore_object (s3 : S3.client) (bucket key : string) (days : Z) (tier : string)
  : run (string * string * option string) :=
  early ← check_current_status s3 bucket key tier;
  match early with
  | Some r => mret r
  | None => try_to_restore s3 bucket key days tier
  end.

Definition list_glacier_objects (s3 : S3.client) (bucket prefix : string) : list (string * Z) :=
  page ← S3.list_objects_v2 s3 bucket prefix;
  obj ← default [] page;
  let key := Key obj in
  let size := default 0 (Size obj) in
  if String.eqb key prefix || (size =? 0) || negb (bool_decide (is_Some (EntryStorageClass obj)))
  then []
  else if in_list (EntryStorageClass obj) glacier_classes
  then [(key, size)]
  else [].

(** The numbers [main] prints at the end. The order in which it prints
    the per-object lines and the tier lines follows the completion order
    and is not part of the report. *)
Record Report := {
  objects_scanned : Z;
  total_size : Z;
  status_counts : gmap string Z;
  tier_usage : gmap string Z
}.

(** The body of [for future in as_completed(futures)]: the two counters. *)
Fixpoint collect (done : list (run (string * string * option string)))
    (status_counts tier_usage : gmap string Z)
  : outcome (gmap string Z * gmap string Z) :=
  match done with
  | [] => mret (status_counts, tier_usage)
  | future :: done =>
      '(key, status, tier_used) ← result future;
      let status_counts := counter_iadd status 1 status_counts in
      let tier_usage :=
        if truthy tier_used
        then counter_iadd (default EmptyString tier_used) 1 tier_usage
        else tier_usage in
      collect done status_counts tier_usage
  end.

Section Pool.

Context (as_completed : list (run (string * string * option string))
                        → list (run (string * string * option string))).

Definition main (s3 : S3.client) (args : Args) : outcome Report :=
  let objects := list_glacier_objects s3 (bucket args) (prefix args) in
  let total_size := sum_sizes objects in
  let status_counts : gmap string Z := ∅ in
  let tier_usage : gmap string Z := ∅ in
  executor ← ThreadPoolExecutor (threads args);
  let futures :=
    (λ o, check_and_restore_object s3 (bucket args) o.1 (days args) (tier args))
      <$> objects in
  '(status_counts, tier_usage) ← collect (as_completed futures) status_counts tier_usage;
  mret {| objects_scanned := Z.of_nat (length objects);
          total_size := total_size;
          status_counts := status_counts;
          tier_usage := tier_usage |}.

End Pool.

End Restore.

(** ** glacier-generate-dummy-files.py *)

Module Uploader.

Definition BUCKET_NAME : string := "dump1425bucket".
Definition PREFIX : string := "images/".
Definition FILE_SIZE_BYTES : Z := 1024.
Definition LOCAL_DIR : string := "./dummy_files".

Fixpoint zeros (n : nat) : string :=
  match n with
  | O => EmptyString
  | S n => String "0"%char (zeros n)
  end.

(** [f'{i:04d}']: decimal, padded with zeros on the left to four places. *)
Definition format_04d (i : nat) : string :=
  let digits := NilEmpty.string_of_uint (Nat.to_uint i) in
  zeros (4 - String.length digits) +:+ digits.

(** Reading a decimal numeral back, leading zeros allowed. *)
Definition parse_decimal (s : string) : option nat :=
  Nat.of_uint <$> NilEmpty.uint_of_string s.

(** [f'dummy_file_{i:04d}.txt'] *)
Definition filename (i : nat) : string :=
  "dummy_file_" +:+ format_04d i +:+ ".txt".

Fixpoint endswith_sep (p : string) : bool :=
  match p with
  | EmptyString => false
  | String c EmptyString => Ascii.eqb c "/"%char
  | String _ p' => endswith_sep p'
  end.

(** [os.path.join(a, b)] *)
Definition path_join (a b : string) : string :=
  if startswith "/" b then b
  else if bool_decide (a = EmptyString) || endswith_sep a then a +:+ b
  else a +:+ "/" +:+ b.

(** [os.path.basename(p)]: what follows the last separator. *)
Fixpoint basename (p : string) : string :=
  match p with
  | EmptyString => EmptyString
  | String c p' =>
      if contains "/" p' then basename p'
      else if Ascii.eqb c "/"%char then p'
      else p
  end.

Definition upload_file (s3 : S3.client) (filepath : string) : run unit :=
  let filename := basename filepath in
  let s3_key := PREFIX +:+ filename in
  try_except
    (request (UploadFile filepath BUCKET_NAME s3_key "GLACIER")
             (S3.upload_file s3 filepath BUCKET_NAME s3_key "GLACIER"))
    (except_Exception (λ e, mret ())).

(** The state of [LOCAL_DIR] on disk: [None] when it does not exist,
    [Some entries] when it is a directory, with the names of its entries.
    File contents are random and are not modelled. The kind of an entry
    is not recorded, so the writing loop below is the one of a run in
    which no generated name is already taken by a directory; the theorems
    about the script start from such a state. *)
Definition directory : Type := option (gset string).

(** Step 1: [os.makedirs(LOCAL_DIR, exist_ok=True)] and the writing loop. *)
Definition generate (NUM_FILES : nat) (d : directory) : directory :=
  Some (foldl (λ entries i, {[filename i]} ∪ entries) (default ∅ d) (seq 1 NUM_FILES)).

(** [os.listdir(LOCAL_DIR)], in the order the set enumerates. *)
Definition listdir (d : directory) : outcome (list string) :=
  match d with
  | Some entries => Returns (elements entries)
  | None => Raises (OtherException "FileNotFoundError")
  end.

(** [shutil.rmtree(LOCAL_DIR)] *)
Definition rmtree (d : directory) : outcome directory :=
  match d with
  | Some _ => Returns None
  | None => Raises (OtherException "FileNotFoundError")
  end.

(** What a run of the script leaves behind: the workers of the pool (each
    with the requests it sent), the directory, and how the main thread
    ended. *)
Record Result := {
  workers : list (run unit);
  local_dir : directory;
  main_thread : outcome unit
}.

(** [executor.map(upload_file, filepaths)] submits one task per path; the
    iterator it returns is never read, so no worker outcome reaches the
    main thread, and leaving the [with] block waits for all workers. *)
Definition script (s3 : S3.client) (NUM_FILES : nat) (d : directory) : Result :=
  let d := generate NUM_FILES d in
  match listdir d with
  | Raises e => {| workers := []; local_dir := d; main_thread := Raises e |}
  | Returns names =>
      let filepaths := path_join LOCAL_DIR <$> names in
      let workers := upload_file s3 <$> filepaths in
      match rmtree d with
      | Raises e => {| workers := workers; local_dir := d; main_thread := Raises e |}
      | Returns d => {| workers := workers; local_dir := d; main_thread := Returns () |}
      end
  end.

(** All the requests of a run, worker by worker. *)
Definition requests (r : Result) : list call := mjoin ((λ w, w.2) <$> workers r).

End Uploader.

(** ** Counting over the submitted futures *)

(** Sum of [g] over a list. *)
Definition sum_with {A} (g : A → Z) (l : list A) : Z :=
  foldr (λ x acc, g x + acc) 0 l.

(** The future holds a result whose status is [status]. *)
Definition has_status {T} (status : string) (future : run (string * string * T)) : bool :=
  match result future with
  | Returns (_, st, _) => String.eqb st status
  | Raises _ => false
  end.

(** How many of the futures hold a result with that status. *)
Definition count_status {T} (status : string) (futures : list (run (string * string * T))) : Z :=
  sum_with (λ f, if has_status status f then 1 else 0) futures.

(** The bytes reported by the futures whose status is Completed. *)
Definition completed_bytes (futures : list (run (string * string * Z))) : Z :=
  sum_with (λ f, match result f with
                 | Returns (_, st, bytes) => if String.eqb st "Completed" then bytes else 0
                 | Raises _ => 0
                 end) futures.

(** The future holds a result (and not an exception). *)
Definition returned {A} (future : run A) : Prop :=
  ∃ a, result future = Returns a.

(** ** Reading requests and results *)

(** The object key a request is about. *)
Definition call_key (c : call) : string :=
  match c with
  | HeadObject _ key => key
  | RestoreObject _ key _ _ => key
  | UploadFile _ _ key _ => key
  end.

(** The statuses [main] of glacier-restore.py prints a line for. *)
Definition printed_statuses : list string :=
  ["Completed"; "In Progress"; "Requested"; "Not Eligible"; "Failed"].

(** The future holds a result whose [tier_used] passes [if tier_used:]. *)
Definition has_tier (future : run (string * string * option string)) : bool :=
  match result future with
  | Returns (_, _, tier_used) => truthy tier_used
  | Raises _ => false
  end.

(** How many of the futures hold a result with a tier. *)
Definition count_tiered (futures : list (run (string * string * option string))) : Z :=
  sum_with (λ f, if has_tier f then 1 else 0) futures.

(** ** Services used in the examples *)

Module Examples.

Definition glacier_object (restore : option string) (size : Z) : outcome head_response :=
  Returns {| Restore := restore; StorageClass := Some "GLACIER"; ContentLength := Some size |}.

Definition glacier_entry (key : string) (size : Z) : list_entry :=
  {| Key := key; Size := Some size; EntryStorageClass := Some "GLACIER" |}.

(** A service described by what it answers per key. *)
Definition service
    (head : string → outcome head_response)
    (restore : nat → string → string → outcome unit)
    (upload : string → outcome unit)
    (listing : list (option (list list_entry))) : S3.client :=
  {| S3.head_object := λ _ key, head key;
     S3.restore_object := λ n _ key _ tier, restore n key tier;
     S3.upload_file := λ _ _ key _, upload key;
     S3.list_objects_v2 := λ _ _, listing |}.

(** An archived object with no restore under way; every restore request
    is refused with the given error. *)
Definition refusing (e : exn) : S3.client :=
  service (λ _, glacier_object None 200) (λ _ _ _, Raises e) (λ _, Returns ())
          [Some [glacier_entry "images/a" 200]].

(** The same object, the first request refused with [e], the fallback accepted. *)
Definition refusing_once (e : exn) : S3.client :=
  service (λ _, glacier_object None 200)
          (λ n _ _, match n with O => Raises e | S _ => Returns () end)
          (λ _, Returns ())
          [Some [glacier_entry "images/a" 200]].

(** An archived object whose [Restore] field is [field]; restore requests
    are accepted. *)
Definition with_restore_field (field : string) : S3.client :=
  service (λ _, glacier_object (Some field) 100) (λ _ _ _, Returns ()) (λ _, Returns ())
          [Some [glacier_entry "images/a" 100]].

(** [head_object] fails; restore requests are accepted. *)
Definition head_failing : S3.client :=
  service (λ _, Raises (OtherException "timed out")) (λ _ _ _, Returns ()) (λ _, Returns ())
          [Some [glacier_entry "images/a" 100]].

(** Three objects: one restored (100 bytes), one archived and untouched
    (200 bytes), one whose [head_object] fails; uploads fail for every
    second file. *)
Definition three_objects : S3.client :=
  service
    (λ key, if String.eqb key "images/a" then glacier_object (Some RestoreStatus.ongoing_false) 100
            else if String.eqb key "images/b" then glacier_object None 200
            else Raises (OtherException "timed out"))
    (λ _ _ _, Returns ())
    (λ key, if contains "2" key then Raises (ClientError "AccessDenied") else Returns ())
    [Some [glacier_entry "images/a" 100; glacier_entry "images/b" 200]; None;
     Some [glacier_entry "images/c" 300; glacier_entry "images/" 0]].

(** An object already in the STANDARD class that still carries a
    [Restore] field; restore requests are accepted. *)
Definition standard_object : S3.client :=
  service (λ _, Returns {| Restore := Some Restore.ongoing_true;
                           StorageClass := Some "STANDARD";
                           ContentLength := Some 100 |})
          (λ _ _ _, Returns ()) (λ _, Returns ())
          [Some [{| Key := "images/a"; Size := Some 100;
                    EntryStorageClass := Some "STANDARD" |}]].

(** A listing that mixes storage classes, an empty entry, the prefix
    itself and an entry without a storage class. *)
Definition mixed_listing : S3.client :=
  service (λ _, glacier_object None 10) (λ _ _ _, Returns ()) (λ _, Returns ())
          [Some [glacier_entry "images/a" 10;
                 {| Key := "images/b"; Size := Some 20; EntryStorageClass := Some "STANDARD" |};
                 {| Key := "images/c"; Size := Some 30; EntryStorageClass := Some "DEEP_ARCHIVE" |}];
           None;
           Some [glacier_entry "images/" 4; glacier_entry "images/d" 0;
                 {| Key := "images/e"; Size := Some 50; EntryStorageClass := None |};
                 {| Key := "images/f"; Size := None; EntryStorageClass := Some "GLACIER" |}]].

(** A bucket with nothing under the prefix. *)
Definition empty_bucket : S3.client :=
  service (λ _, glacier_object None 10) (λ _ _ _, Returns ()) (λ _, Returns ())
          [None].

Definition status_args : RestoreStatus.Args :=
  {| RestoreStatus.bucket := "bucket"; RestoreStatus.prefix := "images/";
     RestoreStatus.threads := 10 |}.

Definition restore_args : Restore.Args :=
  {| Restore.bucket := "bucket"; Restore.prefix := "images/"; Restore.days := 2;
     Restore.tier := "Expedited"; Restore.threads := 10 |}.

End Examples.

(** ** Facts about [startswith] and [contains] *)

Section StringFacts.

Lemma append_cons (x : ascii) (a b : string) :
  String x a +:+ b = String x (a +:+ b).
Proof. reflexivity. Qed.

Lemma append_nil_l (a : string) : EmptyString +:+ a = a.
Proof. reflexivity. Qed.

Lemma append_assoc (a b c : string) : (a +:+ b) +:+ c = a +:+ (b +:+ c).
Proof.
  induction a as [|x a IH]; [done|].
  by rewrite !append_cons, IH.
Qed.

Lemma startswith_app (p t : string) : startswith p (p +:+ t) = true.
Proof.
  induction p as [|a p IH]; [done|].
  rewrite append_cons; simpl. by rewrite Ascii.eqb_refl, IH.
Qed.

Lemma startswith_inv (p s : string) :
  startswith p s = true → ∃ t, s = p +:+ t.
Proof.
  revert s; induction p as [|a p IH]; intros s H.
  - by exists s.
  - destruct s as [|b s]; simpl in H; [done|].
    apply andb_true_iff in H as [Hab Hps].
    apply Ascii.eqb_eq in Hab as ->.
    destruct (IH _ Hps) as [t ->]. by exists t.
Qed.

(** [contains] is exactly: occurs somewhere inside. *)
Lemma contains_intro (sub pre post : string) :
  contains sub (pre +:+ sub +:+ post) = true.
Proof.
  induction pre as [|a pre IH].
  - rewrite append_nil_l.
    destruct (sub +:+ post) eqn:E; simpl;
      rewrite <- E, startswith_app; done.
  - rewrite append_cons; simpl. by rewrite IH, orb_true_r.
Qed.

Lemma contains_inv (sub s : string) :
  contains sub s = true → ∃ pre post, s = pre +:+ sub +:+ post.
Proof.
  induction s as [|a s IH]; simpl; intros H.
  - rewrite orb_false_r in H.
    destruct (startswith_inv _ _ H) as [t Ht]. by exists EmptyString, t.
  - apply orb_true_iff in H as [H|H].
    + destruct (startswith_inv _ _ H) as [t Ht]. by exists EmptyString, t.
    + destruct (IH H) as (pre & post & ->). by exists (String a pre), post.
Qed.

Lemma contains_spec (sub s : string) :
  contains sub s = true ↔ ∃ pre post, s = pre +:+ sub +:+ post.
Proof.
  split; [apply contains_inv|].
  intros (pre & post & ->). apply contains_intro.
Qed.

(** A part of a part is a part. *)
Lemma contains_trans (a b s : string) :
  contains a b = true → contains b s = true → contains a s = true.
Proof.
  intros (p1 & q1 & ->)%contains_inv (p2 & q2 & ->)%contains_inv.
  apply contains_spec. exists (p2 +:+ p1), (q1 +:+ q2).
  by rewrite !append_assoc.
Qed.

End StringFacts.

(** ** The restore worker, request by request *)

Section RestoreWorker.

Import Restore.

Context (s3 : S3.client) (bucket key : string) (days : Z) (tier : string).

(** Step 1 sends the metadata request and nothing else, and never raises. *)
Lemma check_current_status_sent :
  ∃ early, check_current_status s3 bucket key tier = (Returns early, [HeadObject bucket key]).
Proof.
  unfold check_current_status, request.
  destruct (S3.head_object s3 bucket key) as [obj|e]; simpl; [|by eexists].
  repeat (match goal with |- context [if ?b then _ else _] => destruct b end;
          simpl; try by eexists).
Qed.

(** When step 1 falls through, the worker is the metadata request
    followed by step 2. *)
Lemma check_and_restore_object_falls_through :
  (check_current_status s3 bucket key tier).1 = Returns None →
  check_and_restore_object s3 bucket key days tier =
    ((try_to_restore s3 bucket key days tier).1,
     HeadObject bucket key :: (try_to_restore s3 bucket key days tier).2).
Proof.
  intros H. unfold check_and_restore_object.
  destruct check_current_status_sent as [early E].
  rewrite E in H |- *. simpl in H. injection H as ->. simpl.
  by destruct (try_to_restore s3 bucket key days tier).
Qed.

(** When step 1 returns, no restore request is sent. *)
Lemma check_and_restore_object_early r :
  (check_current_status s3 bucket key tier).1 = Returns (Some r) →
  check_and_restore_object s3 bucket key days tier = (Returns r, [HeadObject bucket key]).
Proof.
  intros H. unfold check_and_restore_object.
  destruct check_current_status_sent as [early E].
  rewrite E in H |- *. simpl in H. by injection H as ->.
Qed.

(** A refusal that triggers the fallback: one more request, for Standard. *)
Lemma try_to_restore_fallback error_str :
  S3.restore_object s3 0 bucket key days tier = Raises (ClientError error_str) →
  contains "rate of expedited retrievals" error_str
    || contains "is not allowed" error_str
    || contains "cannot be expedited" error_str = true →
  try_to_restore s3 bucket key days tier =
    (match S3.restore_object s3 1 bucket key days "Standard" with
     | Returns _ => Returns (key, "Requested", Some "Standard")
     | Raises _ => Returns (key, "Failed", Some "Standard")
     end,
     [RestoreObject bucket key days tier; RestoreObject bucket key days "Standard"]).
Proof.
  intros H0 Hsig. unfold try_to_restore, request. rewrite H0. simpl.
  rewrite Hsig.
  by destruct (S3.restore_object s3 1 bucket key days "Standard").
Qed.

End RestoreWorker.

(** The text looked for by the last [elif] already contains the text
    looked for by the first test. *)
Lemma not_allowed_is_shadowed (error_str : string) :
  contains "Object restore is not allowed" error_str = true →
  contains "is not allowed" error_str = true.
Proof. apply contains_trans. by vm_compute. Qed.

(** Step 2 never answers Not Eligible: its last [elif] cannot be reached. *)
Lemma try_to_restore_never_not_eligible
    (s3 : S3.client) (bucket key : string) (days : Z) (tier : string) :
  (Restore.try_to_restore s3 bucket key days tier).1 ≠ Returns (key, "Not Eligible", None).
Proof.
  unfold Restore.try_to_restore, request.
  destruct (S3.restore_object s3 0 bucket key days tier) as [[]|[msg|msg]]; simpl; [done| |done].
  destruct (contains "is not allowed" msg) eqn:Hna.
  - rewrite orb_true_r. simpl.
    by destruct (S3.restore_object s3 1 bucket key days "Standard").
  - destruct (contains "Object restore is not allowed" msg) eqn:Hobj.
    { apply not_allowed_is_shadowed in Hobj. congruence. }
    repeat (match goal with |- context [if ?b then _ else _] => destruct b end;
            simpl; try done).
    all: by destruct (S3.restore_object s3 1 bucket key days "Standard").
Qed.

(** C1 (the code departs from the claim): a restore request refused with
    a message that contains the words Object restore is not allowed is not
    classified Not Eligible. The first test of the handler matches the
    shorter text is not allowed, so the fallback request for Standard is
    sent, and the object ends as Failed (or Requested) with tier Standard. *)
Theorem C1_not_allowed_takes_the_fallback :
  Restore.check_and_restore_object
    (Examples.refusing (ClientError "An error occurred (InvalidObjectState) when calling the RestoreObject operation: Object restore is not allowed"))
    "bucket" "images/a" 2 "Expedited"
  = (Returns ("images/a", "Failed", Some "Standard"),
     [HeadObject "bucket" "images/a";
      RestoreObject "bucket" "images/a" 2 "Expedited";
      RestoreObject "bucket" "images/a" 2 "Standard"]).
Proof. by vm_compute. Qed.

(** C3: when the restore request is refused with a [ClientError] whose
    message contains the words rate of expedited retrievals, exactly one
    more request is sent, asking for the Standard tier; the object is
    Requested with tier Standard when that request is accepted and Failed
    with tier Standard when it is refused. *)
Theorem C3_rate_limit_falls_back_once
    (s3 : S3.client) (bucket key : string) (days : Z) (tier error_str : string) :
  (Restore.check_current_status s3 bucket key tier).1 = Returns None →
  S3.restore_object s3 0 bucket key days tier = Raises (ClientError error_str) →
  contains "rate of expedited retrievals" error_str = true →
  Restore.check_and_restore_object s3 bucket key days tier =
    (match S3.restore_object s3 1 bucket key days "Standard" with
     | Returns _ => Returns (key, "Requested", Some "Standard")
     | Raises _ => Returns (key, "Failed", Some "Standard")
     end,
     [HeadObject bucket key;
      RestoreObject bucket key days tier;
      RestoreObject bucket key days "Standard"]).
Proof.
  intros Hstep1 Hrefused Hmsg.
  rewrite check_and_restore_object_falls_through by done.
  rewrite (try_to_restore_fallback _ _ _ _ _ error_str) by (by rewrite ?Hmsg).
  done.
Qed.

Lemma C3_witness :
  (Restore.check_current_status
     (Examples.refusing_once (ClientError "Glacier expedited retrievals are currently not available: rate of expedited retrievals exceeded"))
     "bucket" "images/a" "Expedited").1 = Returns None
  ∧ Restore.check_and_restore_object
      (Examples.refusing_once (ClientError "Glacier expedited retrievals are currently not available: rate of expedited retrievals exceeded"))
      "bucket" "images/a" 2 "Expedited"
    = (Returns ("images/a", "Requested", Some "Standard"),
       [HeadObject "bucket" "images/a";
        RestoreObject "bucket" "images/a" 2 "Expedited";
        RestoreObject "bucket" "images/a" 2 "Standard"]).
Proof.
  split; [reflexivity|].
  apply (C3_rate_limit_falls_back_once
           (Examples.refusing_once (ClientError "Glacier expedited retrievals are currently not available: rate of expedited retrievals exceeded"))
           "bucket" "images/a" 2 "Expedited"
           "Glacier expedited retrievals are currently not available: rate of expedited retrievals exceeded");
    reflexivity.
Defined.

(** C5, as the claim words it, fails: a refusal that matches no signature
    leaves the object Failed, but the tier is the requested one, not unset. *)
Lemma C5_counterexample :
  ¬ (∀ (s3 : S3.client) (bucket key : string) (days : Z) (tier error_str : string),
       (Restore.check_current_status s3 bucket key tier).1 = Returns None →
       S3.restore_object s3 0 bucket key days tier = Raises (ClientError error_str) →
       contains "rate of expedited retrievals" error_str = false →
       contains "is not allowed" error_str = false →
       contains "cannot be expedited" error_str = false →
       contains "already in progress" error_str = false →
       contains "RestoreAlreadyInProgress" error_str = false →
       contains "Object restore is not allowed" error_str = false →
       (Restore.check_and_restore_object s3 bucket key days tier).1
         = Returns (key, "Failed", None)).
Proof.
  intros claim.
  specialize (claim (Examples.refusing (ClientError "AccessDenied"))
                    "bucket" "images/a" 2 "Expedited" "AccessDenied").
  vm_compute in claim.
  by specialize (claim eq_refl eq_refl eq_refl eq_refl eq_refl eq_refl eq_refl eq_refl).
Qed.

(** C5 (amended): a refusal with a [ClientError] whose message matches
    none of the signatures leaves the object Failed with the requested
    tier recorded and no further request sent; in [main] it adds one to
    the Failed count and, the tier being a non-empty string, one to the
    usage count of the requested tier. *)
Theorem C5_unmatched_refusal_fails_with_requested_tier
    (s3 : S3.client) (bucket key : string) (days : Z) (tier error_str : string) :
  (Restore.check_current_status s3 bucket key tier).1 = Returns None →
  S3.restore_object s3 0 bucket key days tier = Raises (ClientError error_str) →
  contains "rate of expedited retrievals" error_str = false →
  contains "is not allowed" error_str = false →
  contains "cannot be expedited" error_str = false →
  contains "already in progress" error_str = false →
  contains "RestoreAlreadyInProgress" error_str = false →
  contains "Object restore is not allowed" error_str = false →
  tier ≠ EmptyString →
  Restore.check_and_restore_object s3 bucket key days tier
    = (Returns (key, "Failed", Some tier),
       [HeadObject bucket key; RestoreObject bucket key days tier])
  ∧ ∀ done status_counts tier_usage,
      Restore.collect
        (Restore.check_and_restore_object s3 bucket key days tier :: done)
        status_counts tier_usage
      = Restore.collect done
          (counter_iadd "Failed" 1 status_counts) (counter_iadd tier 1 tier_usage).
Proof.
  intros Hstep1 Hrefused H1 H2 H3 H4 H5 H6 Htier.
  assert (Restore.check_and_restore_object s3 bucket key days tier
          = (Returns (key, "Failed", Some tier),
             [HeadObject bucket key; RestoreObject bucket key days tier])) as E.
  { rewrite check_and_restore_object_falls_through by done.
    unfold Restore.try_to_restore, request. rewrite Hrefused. simpl.
    by rewrite H1, H2, H3, H4, H5, H6. }
  split; [done|]. intros done sc tu. rewrite E. simpl.
  by destruct tier.
Qed.

Lemma C5_witness :
  Restore.check_and_restore_object (Examples.refusing (ClientError "AccessDenied"))
    "bucket" "images/a" 2 "Expedited"
    = (Returns ("images/a", "Failed", Some "Expedited"),
       [HeadObject "bucket" "images/a"; RestoreObject "bucket" "images/a" 2 "Expedited"])
  ∧ ∀ done status_counts tier_usage,
      Restore.collect
        (Restore.check_and_restore_object (Examples.refusing (ClientError "AccessDenied"))
           "bucket" "images/a" 2 "Expedited" :: done)
        status_counts tier_usage
      = Restore.collect done
          (counter_iadd "Failed" 1 status_counts) (counter_iadd "Expedited" 1 tier_usage).
Proof.
  apply (C5_unmatched_refusal_fails_with_requested_tier
           (Examples.refusing (ClientError "AccessDenied"))
           "bucket" "images/a" 2 "Expedited" "AccessDenied");
    (reflexivity || discriminate).
Defined.

(** A field that contains one of the two markers is not the empty string. *)
Lemma marker_makes_truthy (marker field : string) :
  marker ≠ EmptyString → contains marker field = true → truthy (Some field) = true.
Proof. destruct field; [|done]. destruct marker; [done|]. by simpl. Qed.

(** C8: for an archival object whose [Restore] field is present and
    carries one of the two markers (as the service writes it, never
    both), the worker sends the metadata request only and no restore
    request: a field with the true marker gives In Progress, a field with
    the false marker gives Completed, both with the requested tier, and
    the worker stops there. *)
Theorem C8_marked_restore_field_stops_the_worker
    (s3 : S3.client) (bucket key : string) (days : Z) (tier : string)
    (obj : head_response) (field : string) :
  S3.head_object s3 bucket key = Returns obj →
  in_list (StorageClass obj) Restore.glacier_classes = true →
  Restore obj = Some field →
  xorb (contains Restore.ongoing_true field) (contains Restore.ongoing_false field) = true →
  (Restore.check_and_restore_object s3 bucket key days tier).2 = [HeadObject bucket key]
  ∧ existsb is_restore_call (Restore.check_and_restore_object s3 bucket key days tier).2
    = false
  ∧ (contains Restore.ongoing_true field = true →
     result (Restore.check_and_restore_object s3 bucket key days tier)
     = Returns (key, "In Progress", Some tier))
  ∧ (contains Restore.ongoing_false field = true →
     result (Restore.check_and_restore_object s3 bucket key days tier)
     = Returns (key, "Completed", Some tier)).
Proof.
  intros Hhead Hclass Hfield Hone.
  assert (Restore.check_and_restore_object s3 bucket key days tier
          = (Returns (key,
                      if contains Restore.ongoing_true field then "In Progress"
                      else "Completed",
                      Some tier),
             [HeadObject bucket key])) as E.
  { apply check_and_restore_object_early.
    unfold Restore.check_current_status, request.
    rewrite Hhead; simpl; rewrite Hclass, Hfield; simpl contains_opt.
    destruct (contains Restore.ongoing_true field) eqn:Ht.
    - by rewrite (marker_makes_truthy Restore.ongoing_true).
    - simpl in Hone.
      by rewrite (marker_makes_truthy Restore.ongoing_false), Hone. }
  rewrite E. simpl. split; [done|]. split; [done|]. split.
  - by intros ->.
  - intros Hf. rewrite Hf in Hone.
    by destruct (contains Restore.ongoing_true field).
Qed.

Lemma C8_witness :
  Restore.check_and_restore_object
    (Examples.with_restore_field (Restore.ongoing_false +:+ ", expiry-date=Fri, 21 Dec 2012 00:00:00 GMT"))
    "bucket" "images/a" 2 "Expedited"
  = (Returns ("images/a", "Completed", Some "Expedited"), [HeadObject "bucket" "images/a"]).
Proof.
  destruct (C8_marked_restore_field_stops_the_worker
              (Examples.with_restore_field (Restore.ongoing_false +:+ ", expiry-date=Fri, 21 Dec 2012 00:00:00 GMT"))
              "bucket" "images/a" 2 "Expedited"
              {| Restore := Some (Restore.ongoing_false +:+ ", expiry-date=Fri, 21 Dec 2012 00:00:00 GMT");
                 StorageClass := Some "GLACIER"; ContentLength := Some 100 |}
              (Restore.ongoing_false +:+ ", expiry-date=Fri, 21 Dec 2012 00:00:00 GMT"))
    as (Hsent & _ & _ & Hcompleted); [reflexivity..|].
  specialize (Hcompleted eq_refl).
  destruct (Restore.check_and_restore_object _ _ _ _ _) as [r sent].
  simpl in *. by subst.
Defined.

(** C7, as the claim words it, fails for the Restore Requester: when the
    metadata request raises, the object is not classified Error. *)
Lemma C7_counterexample :
  ¬ (∀ (s3 : S3.client) (bucket key : string) (days : Z) (tier : string) (e : exn),
       S3.head_object s3 bucket key = Raises e →
       ∃ tier_used,
         (Restore.check_and_restore_object s3 bucket key days tier).1
           = Returns (key, "Error", tier_used)).
Proof.
  intros claim.
  destruct (claim Examples.head_failing "bucket" "images/a" 2 "Expedited" _ eq_refl)
    as [tier_used H].
  by vm_compute in H.
Qed.

(** C7 (amended): when the metadata request raises, the Status Scanner
    classifies the object Error with 0 bytes, its turn in the collecting
    loop only adds one to the Error count, and the loop goes on with the
    remaining futures. The Restore Requester catches the exception and
    sends the restore request with the requested tier right after the
    failed metadata request; a worker that returns classifies the object
    Requested, In Progress or Failed (never Error) with the requested
    tier or Standard, and Requested with the requested tier when that
    request is accepted. *)
Theorem C7_metadata_failure
    (s3 : S3.client) (bucket key : string) (e : exn) :
  S3.head_object s3 bucket key = Raises e →
  RestoreStatus.check_restore_status s3 bucket key
    = (Returns (key, "Error", 0), [HeadObject bucket key])
  ∧ (∀ done summary,
       RestoreStatus.collect (RestoreStatus.check_restore_status s3 bucket key :: done) summary
       = (summary ← iadd "Error" 1 summary; RestoreStatus.collect done summary))
  ∧ (∀ days tier,
       (∃ more,
          (Restore.check_and_restore_object s3 bucket key days tier).2
          = HeadObject bucket key :: RestoreObject bucket key days tier :: more)
       ∧ match result (Restore.check_and_restore_object s3 bucket key days tier) with
         | Returns (k, status, tier_used) =>
             k = key
             ∧ status ∈ ["Requested"; "In Progress"; "Failed"]
             ∧ tier_used ∈ [Some tier; Some "Standard"]
         | Raises e' => S3.restore_object s3 0 bucket key days tier = Raises e'
         end
       ∧ (S3.restore_object s3 0 bucket key days tier = Returns () →
          Restore.check_and_restore_object s3 bucket key days tier
          = (Returns (key, "Requested", Some tier),
             [HeadObject bucket key; RestoreObject bucket key days tier]))).
Proof.
  intros Hhead.
  assert (RestoreStatus.check_restore_status s3 bucket key
          = (Returns (key, "Error", 0), [HeadObject bucket key])) as E.
  { unfold RestoreStatus.check_restore_status, request. by rewrite Hhead. }
  split; [done|]. split.
  - intros done summary. rewrite E. simpl.
    by destruct (iadd "Error" 1 summary).
  - intros days tier.
    rewrite check_and_restore_object_falls_through
      by (unfold Restore.check_current_status, request; by rewrite Hhead).
    pose proof (try_to_restore_never_not_eligible s3 bucket key days tier) as Hne.
    revert Hne. unfold Restore.try_to_restore, request, result.
    destruct (S3.restore_object s3 0 bucket key days tier) as [[]|[msg|msg]]; simpl.
    + intros _. split; [by eexists|]. split; [|done].
      split; [done|]. split; set_solver.
    + repeat (match goal with |- context [if ?b then _ else _] => destruct b end; simpl);
        try destruct (S3.restore_object s3 1 bucket key days "Standard");
        simpl; intros Hne; try done;
        (split; [by eexists|]); (split; [|done]);
        (split; [done|]); split; set_solver.
    + intros _. split; [by eexists|]. by split.
Qed.

Lemma C7_witness :
  RestoreStatus.check_restore_status Examples.head_failing "bucket" "images/a"
    = (Returns ("images/a", "Error", 0), [HeadObject "bucket" "images/a"])
  ∧ (∀ done summary,
       RestoreStatus.collect
         (RestoreStatus.check_restore_status Examples.head_failing "bucket" "images/a" :: done)
         summary
       = (summary ← iadd "Error" 1 summary; RestoreStatus.collect done summary))
  ∧ Restore.check_and_restore_object Examples.head_failing "bucket" "images/a" 2 "Expedited"
    = (Returns ("images/a", "Requested", Some "Expedited"),
       [HeadObject "bucket" "images/a"; RestoreObject "bucket" "images/a" 2 "Expedited"]).
Proof.
  destruct (C7_metadata_failure Examples.head_failing "bucket" "images/a"
              (OtherException "timed out")) as (Hscan & Hloop & Hrestore);
    [reflexivity|].
  split; [exact Hscan|]. split; [exact Hloop|].
  destruct (Hrestore 2 "Expedited") as (_ & _ & Haccepted).
  by apply Haccepted.
Defined.

(** ** Counting is independent of the completion order *)

Section Counting.

Lemma sum_with_perm {A} (g : A → Z) (l l' : list A) :
  l ≡ₚ l' → sum_with g l = sum_with g l'.
Proof. unfold sum_with. induction 1; simpl; lia. Qed.

Lemma count_status_perm {T} (status : string) (l l' : list (run (string * string * T))) :
  l ≡ₚ l' → count_status status l = count_status status l'.
Proof. apply sum_with_perm. Qed.

Lemma completed_bytes_perm (l l' : list (run (string * string * Z))) :
  l ≡ₚ l' → completed_bytes l = completed_bytes l'.
Proof. apply sum_with_perm. Qed.

Lemma count_status_cons {T} (status : string) (f : run (string * string * T)) l :
  count_status status (f :: l)
  = (if has_status status f then 1 else 0) + count_status status l.
Proof. reflexivity. Qed.


End Counting.

(** ** The Status Scanner *)

Section Scanner.

Import RestoreStatus.

(** The worker always returns, with one of the four statuses, after
    exactly one metadata request. *)
Lemma check_restore_status_returns (s3 : S3.client) (bucket key : string) :
  ∃ status size,
    check_restore_status s3 bucket key = (Returns (key, status, size), [HeadObject bucket key])
    ∧ status ∈ statuses.
Proof.
  unfold check_restore_status, request, statuses.
  destruct (S3.head_object s3 bucket key) as [obj|e]; simpl.
  - repeat (match goal with |- context [if ?b then _ else _] => destruct b end; simpl);
      do 2 eexists; (split; [reflexivity|set_solver]).
  - do 2 eexists; (split; [reflexivity|set_solver]).
Qed.

(** The collecting loop over futures that hold scanner results: it runs to
    the end, adds to each status count the number of futures with that
    status and to RestoredSize the bytes of the Completed ones, and leaves
    Total and TotalSize as they were. *)
Lemma collect_counts (done : list (run (string * string * Z))) :
  Forall (λ f, ∃ key status size,
            result f = Returns (key, status, size) ∧ status ∈ statuses) done →
  ∀ (summary : gmap string Z) c i n e r,
    summary !! "Completed" = Some c →
    summary !! "In Progress" = Some i →
    summary !! "Not Started" = Some n →
    summary !! "Error" = Some e →
    summary !! "RestoredSize" = Some r →
    ∃ summary',
      collect done summary = Returns summary'
      ∧ summary' !! "Completed" = Some (c + count_status "Completed" done)
      ∧ summary' !! "In Progress" = Some (i + count_status "In Progress" done)
      ∧ summary' !! "Not Started" = Some (n + count_status "Not Started" done)
      ∧ summary' !! "Error" = Some (e + count_status "Error" done)
      ∧ summary' !! "RestoredSize" = Some (r + completed_bytes done)
      ∧ summary' !! "Total" = summary !! "Total"
      ∧ summary' !! "TotalSize" = summary !! "TotalSize".
Proof.
  induction 1 as [|f done (key & status & size & Hres & Hst) _ IH];
    intros summary c i n e r Hc Hi Hn He Hr.
  { exists summary. unfold count_status, completed_bytes, sum_with; simpl.
    rewrite !Z.add_0_r. by repeat split. }
  destruct f as [o sent]. simpl in Hres. subst o.
  unfold statuses in Hst.
  repeat (apply elem_of_cons in Hst as [->|Hst]); [..|by apply elem_of_nil in Hst].
  all: simpl; unfold iadd, getitem.
  all: repeat (first [rewrite Hc | rewrite Hi | rewrite Hn | rewrite He]; simpl).
  all: try (rewrite lookup_insert_ne by done; rewrite Hr; simpl).
  all: match goal with
       |- ∃ _, RestoreStatus.collect _ ?next = _ ∧ _ =>
         edestruct (IH next) as (summary' & E & ?); [by simplify_map_eq..|]
       end.
  all: exists summary'; split; [done|].
  all: unfold count_status, completed_bytes, sum_with, has_status in *; simpl.
  all: destruct_and!; repeat split; simplify_map_eq; try done; f_equal; lia.
Qed.

End Scanner.

(** The pool is created exactly for a positive number of workers. *)
Lemma ThreadPoolExecutor_positive (max_workers : Z) :
  0 < max_workers → ThreadPoolExecutor max_workers = Returns ().
Proof.
  intros H. unfold ThreadPoolExecutor.
  by destruct (Z.leb_spec max_workers 0); [lia|].
Qed.

Lemma ThreadPoolExecutor_not_positive (max_workers : Z) :
  max_workers ≤ 0 →
  ThreadPoolExecutor max_workers
  = Raises (OtherException "max_workers must be greater than 0").
Proof.
  intros H. unfold ThreadPoolExecutor.
  by destruct (Z.leb_spec max_workers 0); [|lia].
Qed.

Section ScannerRun.

Import RestoreStatus.

Context (as_completed : list (run (string * string * Z)) → list (run (string * string * Z))).
Hypothesis as_completed_perm : ∀ futures, as_completed futures ≡ₚ futures.

Context (s3 : S3.client) (args : Args).
Hypothesis threads_positive : 0 < threads args.

Let objects := list_objects (S3.list_objects_v2 s3 (bucket args) (prefix args)) (prefix args).
Let futures := (λ o, check_restore_status s3 (bucket args) o.1) <$> objects.

Lemma futures_hold_results :
  Forall (λ f, ∃ key status size,
            result f = Returns (key, status, size) ∧ status ∈ statuses) futures.
Proof.
  apply Forall_fmap, Forall_forall. intros o _. simpl.
  destruct (check_restore_status_returns s3 (bucket args) o.1) as (st & sz & -> & ?).
  by exists o.1, st, sz.
Qed.

(** Each future counts under exactly one of the four statuses. *)
Lemma statuses_partition_futures :
  count_status "Completed" futures + count_status "In Progress" futures
  + count_status "Not Started" futures + count_status "Error" futures
  = Z.of_nat (length objects).
Proof.
  unfold futures. clear futures.
  induction objects as [|o os IH]; [done|].
  rewrite fmap_cons, !count_status_cons, length_cons, Nat2Z.inj_succ.
  destruct (check_restore_status_returns s3 (bucket args) o.1) as (st & sz & -> & Hst).
  unfold has_status; simpl. unfold statuses in Hst.
  repeat (apply elem_of_cons in Hst as [->|Hst]); [..|by apply elem_of_nil in Hst];
    simpl; lia.
Qed.

(** The whole run with a positive number of threads: it returns, and
    every counter is a function of the submitted futures alone, whatever
    the completion order. *)
Lemma summarize_restore_status_returns :
  ∃ summary percent,
    summarize_restore_status as_completed s3 args = Returns (summary, percent)
    ∧ percent_complete summary = Returns percent
    ∧ summary !! "Total" = Some (Z.of_nat (length objects))
    ∧ summary !! "TotalSize" = Some (sum_sizes objects)
    ∧ summary !! "Completed" = Some (count_status "Completed" futures)
    ∧ summary !! "In Progress" = Some (count_status "In Progress" futures)
    ∧ summary !! "Not Started" = Some (count_status "Not Started" futures)
    ∧ summary !! "Error" = Some (count_status "Error" futures)
    ∧ summary !! "RestoredSize" = Some (completed_bytes futures).
Proof.
  unfold summarize_restore_status.
  rewrite (ThreadPoolExecutor_positive _ threads_positive).
  fold objects. fold futures.
  set (start := <["TotalSize" := sum_sizes objects]>
                  (<["Total" := Z.of_nat (length objects)]> initial_summary)).
  destruct (collect_counts (as_completed futures)) with (summary := start)
    (c := 0) (i := 0) (n := 0) (e := 0) (r := 0)
    as (summary & E & Hc & Hi & Hn & He & Hr & Htot & Hsize); try done.
  { rewrite as_completed_perm. apply futures_hold_results. }
  rewrite (count_status_perm _ _ futures) in Hc by done.
  rewrite (count_status_perm _ _ futures) in Hi by done.
  rewrite (count_status_perm _ _ futures) in Hn by done.
  rewrite (count_status_perm _ _ futures) in He by done.
  rewrite (completed_bytes_perm _ futures) in Hr by done.
  rewrite Z.add_0_l in Hc, Hi, Hn, He, Hr.
  assert (summary !! "Total" = Some (Z.of_nat (length objects))) as Htot'
    by (by rewrite Htot).
  assert (∃ percent, percent_complete summary = Returns percent) as [percent Hp].
  { unfold percent_complete, getitem. rewrite Htot', Hc. simpl.
    unfold truediv. destruct (Z.of_nat (length objects) =? 0); simpl; by eexists. }
  exists summary, percent. rewrite E. simpl. rewrite Hp. simpl.
  by repeat split.
Qed.

End ScannerRun.

(** ** The Restore Requester's counters *)

Section Counters.

Lemma sum_values_insert_fresh (k : string) (v : Z) (c : gmap string Z) :
  c !! k = None → sum_values (<[k := v]> c) = v + sum_values c.
Proof.
  intros Hk. unfold sum_values.
  rewrite map_fold_insert_L; [done| |done]. intros; lia.
Qed.

Lemma sum_values_delete (k : string) (v : Z) (c : gmap string Z) :
  c !! k = Some v → sum_values c = v + sum_values (delete k c).
Proof.
  intros Hk. unfold sum_values.
  rewrite (map_fold_delete_L _ _ k v c); [done| |done]. intros; lia.
Qed.

(** [c[k] += v] adds [v] to the sum of all the counts. *)
Lemma sum_values_counter_iadd (k : string) (v : Z) (c : gmap string Z) :
  sum_values (counter_iadd k v c) = sum_values c + v.
Proof.
  unfold counter_iadd. destruct (c !! k) as [x|] eqn:Hk; simpl.
  - rewrite <- insert_delete_eq.
    rewrite sum_values_insert_fresh by apply lookup_delete_eq.
    rewrite (sum_values_delete k x c) by done. lia.
  - rewrite sum_values_insert_fresh by done. lia.
Qed.

(** [c[k] += 1] changes the count of [k] and of nothing else. *)
Lemma counter_get_iadd (k k' : string) (c : gmap string Z) :
  counter_get (counter_iadd k 1 c) k'
  = counter_get c k' + (if String.eqb k k' then 1 else 0).
Proof.
  unfold counter_get, counter_iadd.
  destruct (String.eqb k k') eqn:E.
  - apply String.eqb_eq in E as ->. by rewrite lookup_insert_eq.
  - apply String.eqb_neq in E. rewrite lookup_insert_ne by done. lia.
Qed.

(** The collecting loop of [main]: either it runs to the end, and then
    every future held a result and was counted once under its status, or
    it stops at a future that holds an exception and re-raises it. *)
Lemma restore_collect_counts (done : list (run (string * string * option string))) :
  ∀ status_counts tier_usage,
    match Restore.collect done status_counts tier_usage with
    | Returns (status_counts', _) =>
        Forall returned done
        ∧ (∀ status, counter_get status_counts' status
                     = counter_get status_counts status + count_status status done)
        ∧ sum_values status_counts' = sum_values status_counts + Z.of_nat (length done)
    | Raises e => ∃ f, f ∈ done ∧ result f = Raises e
    end.
Proof.
  induction done as [|[[[[key st] tier_used]|e] sent] done IH]; intros sc tu; simpl.
  - split; [constructor|]. split; [|lia].
    intros status. unfold count_status, sum_with; simpl. lia.
  - match goal with |- context [Restore.collect done ?a ?b] =>
      specialize (IH a b); destruct (Restore.collect done a b) as [[sc' tu']|e]
    end.
    + destruct IH as (Hall & Hcount & Hsum). split; [|split].
      * constructor; [by eexists|done].
      * intros status. rewrite Hcount, counter_get_iadd.
        unfold count_status, sum_with, has_status; simpl. lia.
      * rewrite Hsum, sum_values_counter_iadd. lia.
    + destruct IH as (f & Hin & Hf). exists f. split; [by right|done].
  - eexists. split; [by left|done].
Qed.

End Counters.

Section RequesterRun.

Import Restore.

Context (as_completed : list (run (string * string * option string))
                        → list (run (string * string * option string))).
Hypothesis as_completed_perm : ∀ futures, as_completed futures ≡ₚ futures.

Context (s3 : S3.client) (args : Args).
Hypothesis threads_positive : 0 < threads args.

Let objects := list_glacier_objects s3 (bucket args) (prefix args).
Let futures :=
  (λ o, check_and_restore_object s3 (bucket args) o.1 (days args) (tier args)) <$> objects.

(** A run of [main] with a positive number of threads that reaches its
    summary has counted every object once; a run that does not was
    stopped by a worker that raised. *)
Lemma main_counts :
  match main as_completed s3 args with
  | Returns report =>
      objects_scanned report = Z.of_nat (length objects)
      ∧ sum_values (status_counts report) = Z.of_nat (length objects)
      ∧ (∀ status, counter_get (status_counts report) status = count_status status futures)
      ∧ Forall returned futures
  | Raises e =>
      ∃ o, o ∈ objects
           ∧ result (check_and_restore_object s3 (bucket args) o.1 (days args) (tier args))
             = Raises e
  end.
Proof.
  unfold main. rewrite (ThreadPoolExecutor_positive _ threads_positive).
  fold objects. fold futures.
  pose proof (restore_collect_counts (as_completed futures) ∅ ∅) as H.
  destruct (Restore.collect (as_completed futures) ∅ ∅) as [[sc tu]|e]; simpl.
  - destruct H as (Hall & Hcount & Hsum).
    rewrite as_completed_perm in Hall.
    rewrite as_completed_perm in Hsum.
    unfold futures in Hsum. rewrite length_fmap in Hsum.
    repeat split; try done.
    intros status. rewrite Hcount.
    rewrite (count_status_perm _ _ futures) by done.
    unfold counter_get. by rewrite lookup_empty.
  - destruct H as (f & Hin & Hf).
    rewrite as_completed_perm in Hin.
    apply list_elem_of_fmap in Hin as (o & -> & Ho). by exists o.
Qed.

End RequesterRun.

(** ** Claims about the runs *)

(** C2: with a positive number of threads and whatever order the pool
    completes the futures in, the Status Scanner returns with Total =
    Completed + In Progress + Not Started + Error, each of the four being
    the number of submitted objects with that status; and a run of the
    Restore Requester that reaches its summary has Total equal to the sum
    of all status counts, each count being the number of submitted
    objects with that status. The only run that does not reach the
    summary is one stopped by a worker that raised. *)
Theorem C2_every_object_counted_once
    (scanner_order : list (run (string * string * Z)) → list (run (string * string * Z)))
    (requester_order : list (run (string * string * option string))
                       → list (run (string * string * option string)))
    (s3 : S3.client) (sargs : RestoreStatus.Args) (rargs : Restore.Args) :
  (∀ futures, scanner_order futures ≡ₚ futures) →
  (∀ futures, requester_order futures ≡ₚ futures) →
  0 < RestoreStatus.threads sargs →
  0 < Restore.threads rargs →
  (∃ summary percent total completed in_progress not_started error,
     RestoreStatus.summarize_restore_status scanner_order s3 sargs = Returns (summary, percent)
     ∧ summary !! "Total" = Some total
     ∧ summary !! "Completed" = Some completed
     ∧ summary !! "In Progress" = Some in_progress
     ∧ summary !! "Not Started" = Some not_started
     ∧ summary !! "Error" = Some error
     ∧ total = completed + in_progress + not_started + error
     ∧ total = Z.of_nat (length (RestoreStatus.list_objects
                                   (S3.list_objects_v2 s3 (RestoreStatus.bucket sargs)
                                      (RestoreStatus.prefix sargs))
                                   (RestoreStatus.prefix sargs)))
     ∧ ∀ status, status ∈ RestoreStatus.statuses →
         summary !! status
         = Some (count_status status
                   ((λ o, RestoreStatus.check_restore_status s3 (RestoreStatus.bucket sargs) o.1)
                      <$> RestoreStatus.list_objects
                            (S3.list_objects_v2 s3 (RestoreStatus.bucket sargs)
                               (RestoreStatus.prefix sargs))
                            (RestoreStatus.prefix sargs))))
  ∧ match Restore.main requester_order s3 rargs with
    | Returns report =>
        Restore.objects_scanned report = sum_values (Restore.status_counts report)
        ∧ Restore.objects_scanned report
          = Z.of_nat (length (Restore.list_glacier_objects s3 (Restore.bucket rargs)
                                (Restore.prefix rargs)))
        ∧ ∀ status,
            counter_get (Restore.status_counts report) status
            = count_status status
                ((λ o, Restore.check_and_restore_object s3 (Restore.bucket rargs) o.1
                         (Restore.days rargs) (Restore.tier rargs))
                   <$> Restore.list_glacier_objects s3 (Restore.bucket rargs)
                         (Restore.prefix rargs))
    | Raises e =>
        ∃ o, o ∈ Restore.list_glacier_objects s3 (Restore.bucket rargs) (Restore.prefix rargs)
             ∧ result (Restore.check_and_restore_object s3 (Restore.bucket rargs) o.1
                         (Restore.days rargs) (Restore.tier rargs))
               = Raises e
    end.
Proof.
  intros Hscan Hreq Hsthreads Hrthreads. split.
  - destruct (summarize_restore_status_returns scanner_order Hscan s3 sargs Hsthreads)
      as (summary & percent & E & _ & Htot & _ & Hc & Hi & Hn & He & _).
    exists summary, percent. do 5 eexists.
    split; [done|]. do 5 (split; [done|]).
    split; [by rewrite statuses_partition_futures|]. split; [done|].
    intros status Hst. unfold RestoreStatus.statuses in Hst.
    repeat (apply elem_of_cons in Hst as [->|Hst]); [done..|by apply elem_of_nil in Hst].
  - pose proof (main_counts requester_order Hreq s3 rargs Hrthreads) as H.
    destruct (Restore.main requester_order s3 rargs) as [report|e]; [|done].
    destruct H as (Hn & Hsum & Hcount & _). split; [congruence|done].
Qed.

Lemma C2_witness :
  (∃ summary percent total completed in_progress not_started error,
     RestoreStatus.summarize_restore_status reverse Examples.three_objects Examples.status_args
       = Returns (summary, percent)
     ∧ summary !! "Total" = Some total
     ∧ summary !! "Completed" = Some completed
     ∧ summary !! "In Progress" = Some in_progress
     ∧ summary !! "Not Started" = Some not_started
     ∧ summary !! "Error" = Some error
     ∧ total = completed + in_progress + not_started + error
     ∧ total = 3
     ∧ ∀ status, status ∈ RestoreStatus.statuses →
         summary !! status
         = Some (count_status status
                   ((λ o, RestoreStatus.check_restore_status Examples.three_objects
                            (RestoreStatus.bucket Examples.status_args) o.1)
                      <$> RestoreStatus.list_objects
                            (S3.list_objects_v2 Examples.three_objects
                               (RestoreStatus.bucket Examples.status_args)
                               (RestoreStatus.prefix Examples.status_args))
                            (RestoreStatus.prefix Examples.status_args))))
  ∧ match Restore.main reverse Examples.three_objects Examples.restore_args with
    | Returns report =>
        Restore.objects_scanned report = sum_values (Restore.status_counts report)
        ∧ Restore.objects_scanned report = 3
        ∧ ∀ status,
            counter_get (Restore.status_counts report) status
            = count_status status
                ((λ o, Restore.check_and_restore_object Examples.three_objects
                         (Restore.bucket Examples.restore_args) o.1
                         (Restore.days Examples.restore_args) (Restore.tier Examples.restore_args))
                   <$> Restore.list_glacier_objects Examples.three_objects
                         (Restore.bucket Examples.restore_args)
                         (Restore.prefix Examples.restore_args))
    | Raises e =>
        ∃ o, o ∈ Restore.list_glacier_objects Examples.three_objects
                   (Restore.bucket Examples.restore_args) (Restore.prefix Examples.restore_args)
             ∧ result (Restore.check_and_restore_object Examples.three_objects
                         (Restore.bucket Examples.restore_args) o.1
                         (Restore.days Examples.restore_args) (Restore.tier Examples.restore_args))
               = Raises e
    end.
Proof.
  apply (C2_every_object_counted_once reverse reverse Examples.three_objects
           Examples.status_args Examples.restore_args);
    [intros futures; apply reverse_Permutation
    |intros futures; apply reverse_Permutation
    |reflexivity|reflexivity].
Defined.

(** C4: in the Status Scanner, for an object whose metadata request
    succeeds and whose [Restore] field, when present, carries at most one
    of the two markers (as the service writes it): a field with the false
    marker classifies the object Completed, a field with the true marker
    classifies it In Progress, a missing field classifies it Not Started,
    each with the size taken from the metadata; and at the end of a run
    with a positive number of threads RestoredSize is the sum of the
    sizes of the objects classified Completed. *)
Theorem C4_scanner_classification
    (as_completed : list (run (string * string * Z)) → list (run (string * string * Z)))
    (s3 : S3.client) (args : RestoreStatus.Args) (bucket key : string) (obj : head_response) :
  (∀ futures, as_completed futures ≡ₚ futures) →
  0 < RestoreStatus.threads args →
  S3.head_object s3 bucket key = Returns obj →
  contains_opt RestoreStatus.ongoing_false (Restore obj)
    && contains_opt RestoreStatus.ongoing_true (Restore obj) = false →
  (contains_opt RestoreStatus.ongoing_false (Restore obj) = true →
     RestoreStatus.check_restore_status s3 bucket key
     = (Returns (key, "Completed", default 0 (ContentLength obj)), [HeadObject bucket key]))
  ∧ (contains_opt RestoreStatus.ongoing_true (Restore obj) = true →
     RestoreStatus.check_restore_status s3 bucket key
     = (Returns (key, "In Progress", default 0 (ContentLength obj)), [HeadObject bucket key]))
  ∧ (Restore obj = None →
     RestoreStatus.check_restore_status s3 bucket key
     = (Returns (key, "Not Started", default 0 (ContentLength obj)), [HeadObject bucket key]))
  ∧ ∃ summary percent,
      RestoreStatus.summarize_restore_status as_completed s3 args = Returns (summary, percent)
      ∧ summary !! "RestoredSize"
        = Some (completed_bytes
                  ((λ o, RestoreStatus.check_restore_status s3 (RestoreStatus.bucket args) o.1)
                     <$> RestoreStatus.list_objects
                           (S3.list_objects_v2 s3 (RestoreStatus.bucket args)
                              (RestoreStatus.prefix args))
                           (RestoreStatus.prefix args))).
Proof.
  intros Hperm Hthreads Hhead Hone.
  assert (RestoreStatus.check_restore_status s3 bucket key
          = (Returns (key,
                      if contains_opt RestoreStatus.ongoing_false (Restore obj) then "Completed"
                      else if contains_opt RestoreStatus.ongoing_true (Restore obj)
                           then "In Progress" else "Not Started",
                      default 0 (ContentLength obj)),
             [HeadObject bucket key])) as E.
  { unfold RestoreStatus.check_restore_status, request. rewrite Hhead. simpl.
    destruct (Restore obj) as [[|a field]|]; [done| |done].
    simpl truthy. cbv iota. unfold contains_opt.
    by repeat (match goal with |- context [if ?b then _ else _] => destruct b end). }
  rewrite E. split; [by intros ->|]. split; [|split].
  - intros Ht. rewrite Ht, andb_true_r in Hone. by rewrite Hone, Ht.
  - by intros ->.
  - destruct (summarize_restore_status_returns as_completed Hperm s3 args Hthreads)
      as (summary & percent & Hrun & _ & _ & _ & _ & _ & _ & _ & Hr).
    by exists summary, percent.
Qed.

Lemma C4_witness :
  RestoreStatus.check_restore_status Examples.three_objects "bucket" "images/a"
  = (Returns ("images/a", "Completed", 100), [HeadObject "bucket" "images/a"])
  ∧ ∃ summary percent,
      RestoreStatus.summarize_restore_status reverse Examples.three_objects Examples.status_args
        = Returns (summary, percent)
      ∧ summary !! "RestoredSize" = Some 100.
Proof.
  destruct (C4_scanner_classification reverse Examples.three_objects Examples.status_args
              "bucket" "images/a"
              {| Restore := Some RestoreStatus.ongoing_false; StorageClass := Some "GLACIER";
                 ContentLength := Some 100 |})
    as (Hcompleted & _ & _ & Hrun).
  - intros futures. apply reverse_Permutation.
  - reflexivity.
  - reflexivity.
  - reflexivity.
  - split; [by apply Hcompleted|exact Hrun].
Defined.

(** The percentage, from the two counters it reads. *)
Lemma percent_complete_value (summary : gmap string Z) (total completed : Z) :
  summary !! "Total" = Some total →
  summary !! "Completed" = Some completed →
  RestoreStatus.percent_complete summary
  = Returns (if total =? 0 then inject_Z 0
             else (inject_Z completed / inject_Z total * inject_Z 100)%Q).
Proof.
  intros Ht Hc. unfold RestoreStatus.percent_complete, getitem. rewrite Ht. simpl.
  destruct (total =? 0) eqn:E; simpl; [done|].
  rewrite ?Hc, ?Ht. simpl. unfold RestoreStatus.truediv. by rewrite E.
Qed.

(** C10: with a positive number of threads the Status Scanner returns
    its summary (no division by zero); the percentage is 0 when no object
    was enumerated, and otherwise Completed / Total * 100, Total being
    the number of enumerated objects and Completed the number of them
    classified Completed. True division is taken on exact rationals. *)
Theorem C10_percent_complete
    (as_completed : list (run (string * string * Z)) → list (run (string * string * Z)))
    (s3 : S3.client) (args : RestoreStatus.Args) :
  (∀ futures, as_completed futures ≡ₚ futures) →
  0 < RestoreStatus.threads args →
  ∃ summary percent total completed,
    RestoreStatus.summarize_restore_status as_completed s3 args = Returns (summary, percent)
    ∧ summary !! "Total" = Some total
    ∧ summary !! "Completed" = Some completed
    ∧ total = Z.of_nat (length (RestoreStatus.list_objects
                                  (S3.list_objects_v2 s3 (RestoreStatus.bucket args)
                                     (RestoreStatus.prefix args))
                                  (RestoreStatus.prefix args)))
    ∧ completed
      = count_status "Completed"
          ((λ o, RestoreStatus.check_restore_status s3 (RestoreStatus.bucket args) o.1)
             <$> RestoreStatus.list_objects
                   (S3.list_objects_v2 s3 (RestoreStatus.bucket args)
                      (RestoreStatus.prefix args))
                   (RestoreStatus.prefix args))
    ∧ percent = (if total =? 0 then inject_Z 0
                 else (inject_Z completed / inject_Z total * inject_Z 100)%Q).
Proof.
  intros Hperm Hthreads.
  destruct (summarize_restore_status_returns as_completed Hperm s3 args Hthreads)
    as (summary & percent & E & Hp & Htot & _ & Hc & _).
  exists summary, percent. do 2 eexists.
  split; [done|]. split; [done|]. split; [done|]. split; [done|]. split; [done|].
  rewrite (percent_complete_value _ _ _ Htot Hc) in Hp. by injection Hp as <-.
Qed.

Lemma C10_witness :
  ∃ summary percent total completed,
    RestoreStatus.summarize_restore_status reverse Examples.three_objects Examples.status_args
      = Returns (summary, percent)
    ∧ summary !! "Total" = Some total
    ∧ summary !! "Completed" = Some completed
    ∧ total = 3
    ∧ completed = 1
    ∧ percent = (100 # 3)%Q.
Proof.
  destruct (C10_percent_complete reverse Examples.three_objects Examples.status_args)
    as (summary & percent & total & completed & E & Ht & Hc & Htotal & Hcompleted & Hp).
  - intros futures. apply reverse_Permutation.
  - reflexivity.
  - exists summary, percent, total, completed.
    subst total completed. by repeat split.
Defined.

(** C6 (the code departs from the claim): in the Restore Requester the
    first restore request is guarded by [except ClientError] only. An
    exception of another class raised by that request leaves the worker,
    is raised again by [future.result()] in [main], and ends the run
    before the summary, with exit status 1. *)
Theorem C6_other_exception_aborts_the_requester :
  Restore.main reverse
    (Examples.refusing (OtherException "Could not connect to the endpoint URL"))
    Examples.restore_args
  = Raises (OtherException "Could not connect to the endpoint URL")
  ∧ exit_status
      (Restore.main reverse
         (Examples.refusing (OtherException "Could not connect to the endpoint URL"))
         Examples.restore_args)
    = 1.
Proof. by vm_compute. Qed.

(** ** The Uploader *)

Section UploaderFacts.

Import Uploader.

Lemma parse_decimal_zeros (k : nat) (s : string) :
  parse_decimal (zeros k +:+ s) = parse_decimal s.
Proof.
  induction k as [|k IH]; [done|].
  rewrite <- IH. unfold parse_decimal. simpl zeros. rewrite append_cons.
  simpl NilEmpty.uint_of_string.
  by destruct (NilEmpty.uint_of_string (zeros k +:+ s)).
Qed.

Lemma parse_decimal_format (i : nat) : parse_decimal (format_04d i) = Some i.
Proof.
  unfold format_04d. rewrite parse_decimal_zeros.
  unfold parse_decimal. rewrite NilEmpty.usu. simpl.
  by rewrite DecimalNat.Unsigned.of_to.
Qed.

Lemma append_length (a b : string) :
  String.length (a +:+ b) = (String.length a + String.length b)%nat.
Proof.
  induction a as [|x a IH]; [done|].
  rewrite append_cons. simpl. by rewrite IH.
Qed.

Lemma append_inv_tail (a b c : string) : a +:+ c = b +:+ c → a = b.
Proof.
  revert b; induction a as [|x a IH]; intros [|y b] H.
  - done.
  - apply (f_equal String.length) in H.
    rewrite ?append_nil_l, ?append_cons in H. simpl in H.
    rewrite append_length in H. lia.
  - apply (f_equal String.length) in H.
    rewrite ?append_nil_l, ?append_cons in H. simpl in H.
    rewrite append_length in H. lia.
  - rewrite !append_cons in H. injection H as -> H. f_equal. by apply IH.
Qed.

(** Distinct numbers give distinct file names. *)
Lemma filename_inj (i j : nat) : filename i = filename j → i = j.
Proof.
  unfold filename. intros H.
  apply (inj (String.append "dummy_file_")) in H.
  apply append_inv_tail in H.
  apply (f_equal parse_decimal) in H.
  rewrite !parse_decimal_format in H. congruence.
Qed.

Lemma filenames_NoDup (l : list nat) : NoDup l → NoDup (filename <$> l).
Proof. apply NoDup_fmap_2. intros i j. apply filename_inj. Qed.

End UploaderFacts.

Section UploaderPaths.

Import Uploader.

Lemma contains_slash_cons (x : ascii) (s : string) :
  contains "/" (String x s) = Ascii.eqb "/" x || contains "/" s.
Proof. cbn [contains startswith]. by rewrite andb_true_r. Qed.

Lemma slash_in_append (a b : string) :
  contains "/" (a +:+ b) = contains "/" a || contains "/" b.
Proof.
  induction a as [|x a IH]; [reflexivity|].
  by rewrite append_cons, !contains_slash_cons, IH, orb_assoc.
Qed.

Lemma no_slash_in_digits (d : Decimal.uint) :
  contains "/" (NilEmpty.string_of_uint d) = false.
Proof. induction d; simpl; rewrite ?IHd; done. Qed.

Lemma no_slash_in_zeros (k : nat) : contains "/" (zeros k) = false.
Proof. induction k; simpl; rewrite ?IHk; done. Qed.

Lemma no_slash_in_filename (i : nat) : contains "/" (filename i) = false.
Proof.
  unfold filename, format_04d.
  by rewrite !slash_in_append, no_slash_in_zeros, no_slash_in_digits.
Qed.

(** The base name of [d/f] is [f] when [f] has no separator. *)
Lemma basename_join (d f : string) :
  contains "/" f = false → basename (d +:+ "/" +:+ f) = f.
Proof.
  intros Hf. induction d as [|x d IH].
  - change (EmptyString +:+ "/" +:+ f) with (String "/" f). simpl.
    destruct f; simpl in *; by rewrite ?Hf.
  - rewrite append_cons. simpl basename.
    by rewrite (contains_intro "/" d f), IH.
Qed.

Lemma path_join_filename (i : nat) :
  path_join LOCAL_DIR (filename i) = LOCAL_DIR +:+ "/" +:+ filename i.
Proof. reflexivity. Qed.

(** A worker sends its one store request and returns, whatever the
    service answers. *)
Lemma upload_file_returns (s3 : S3.client) (filepath : string) :
  upload_file s3 filepath
  = (Returns (),
     [UploadFile filepath BUCKET_NAME (PREFIX +:+ basename filepath) "GLACIER"]).
Proof.
  unfold upload_file, request.
  by destruct (S3.upload_file s3 filepath BUCKET_NAME (PREFIX +:+ basename filepath) "GLACIER")
    as [[]|e].
Qed.

Lemma elem_of_written (l : list nat) (entries : gset string) (x : string) :
  x ∈ foldl (λ entries i, {[filename i]} ∪ entries) entries l
  ↔ x ∈ entries ∨ x ∈ filename <$> l.
Proof.
  revert entries; induction l as [|i l IH]; intros entries; simpl.
  - set_solver.
  - rewrite IH. set_solver.
Qed.

(** In a directory that was empty, the listing is the generated names. *)
Lemma listdir_generate (NUM_FILES : nat) (d : directory) :
  d = None ∨ d = Some ∅ →
  ∃ names, listdir (generate NUM_FILES d) = Returns names
           ∧ names ≡ₚ filename <$> seq 1 NUM_FILES.
Proof.
  intros Hfresh. eexists. split; [reflexivity|].
  apply NoDup_Permutation.
  - apply NoDup_elements.
  - apply filenames_NoDup, NoDup_seq.
  - intros x. rewrite elem_of_elements, elem_of_written.
    destruct Hfresh as [->| ->]; set_solver.
Qed.

Lemma requests_of_workers (s3 : S3.client) (filepaths : list string) :
  mjoin ((λ w : run unit, w.2) <$> (upload_file s3 <$> filepaths))
  = (λ p, UploadFile p BUCKET_NAME (PREFIX +:+ basename p) "GLACIER") <$> filepaths.
Proof.
  induction filepaths as [|p ps IH]; [done|].
  rewrite !fmap_cons, upload_file_returns. simpl. by rewrite IH.
Qed.

End UploaderPaths.

(** C9: from a fresh local directory and a file count N, the Uploader
    sends exactly N store requests, one for each generated file (its path
    as the file name, the prefix followed by its name as the key, storage
    class GLACIER); every worker returns whatever the service answered,
    and the local directory is removed at the end. *)
Theorem C9_one_store_request_per_file
    (s3 : S3.client) (NUM_FILES : nat) (d : Uploader.directory) :
  d = None ∨ d = Some ∅ →
  length (Uploader.requests (Uploader.script s3 NUM_FILES d)) = NUM_FILES
  ∧ Uploader.requests (Uploader.script s3 NUM_FILES d)
    ≡ₚ (λ i, UploadFile (Uploader.LOCAL_DIR +:+ "/" +:+ Uploader.filename i)
               Uploader.BUCKET_NAME (Uploader.PREFIX +:+ Uploader.filename i) "GLACIER")
       <$> seq 1 NUM_FILES
  ∧ Forall (λ w, result w = Returns ()) (Uploader.workers (Uploader.script s3 NUM_FILES d))
  ∧ Uploader.local_dir (Uploader.script s3 NUM_FILES d) = None
  ∧ Uploader.main_thread (Uploader.script s3 NUM_FILES d) = Returns ().
Proof.
  intros Hfresh.
  destruct (listdir_generate NUM_FILES d Hfresh) as (names & Hlist & Hnames).
  assert (Uploader.requests (Uploader.script s3 NUM_FILES d)
          ≡ₚ (λ i, UploadFile (Uploader.LOCAL_DIR +:+ "/" +:+ Uploader.filename i)
                     Uploader.BUCKET_NAME (Uploader.PREFIX +:+ Uploader.filename i) "GLACIER")
             <$> seq 1 NUM_FILES) as Hreq.
  { unfold Uploader.script, Uploader.requests. rewrite Hlist. simpl.
    rewrite requests_of_workers, Hnames, <- !list_fmap_compose.
    match goal with |- ?l ≡ₚ ?r => replace l with r; [done|] end.
    apply list_fmap_ext. intros _ i _. unfold compose.
    rewrite path_join_filename.
    by rewrite (basename_join Uploader.LOCAL_DIR _ (no_slash_in_filename i)). }
  split; [by rewrite Hreq, length_fmap, length_seq|]. split; [done|].
  unfold Uploader.script. rewrite Hlist. simpl. split; [|done].
  apply Forall_fmap, Forall_forall. intros p _. simpl.
  by rewrite upload_file_returns.
Qed.

Lemma C9_witness :
  length (Uploader.requests (Uploader.script Examples.three_objects 5 None)) = 5%nat
  ∧ Uploader.requests (Uploader.script Examples.three_objects 5 None)
    ≡ₚ (λ i, UploadFile (Uploader.LOCAL_DIR +:+ "/" +:+ Uploader.filename i)
               Uploader.BUCKET_NAME (Uploader.PREFIX +:+ Uploader.filename i) "GLACIER")
       <$> seq 1 5
  ∧ Forall (λ w, result w = Returns ())
      (Uploader.workers (Uploader.script Examples.three_objects 5 None))
  ∧ Uploader.local_dir (Uploader.script Examples.three_objects 5 None) = None
  ∧ Uploader.main_thread (Uploader.script Examples.three_objects 5 None) = Returns ().
Proof.
  apply (C9_one_store_request_per_file Examples.three_objects 5 None).
  by left.
Defined.

(** ** The scenarios, run *)

(** Three objects, one restored (100 bytes), one untouched, one whose
    metadata request fails: Total 3, Completed 1, Not Started 1, Error 1,
    RestoredSize 100, and 100/3 percent. *)
Example scanner_three_objects :
  (r ← RestoreStatus.summarize_restore_status reverse Examples.three_objects
         Examples.status_args;
   mret (r.1 !! "Total", r.1 !! "Completed", r.1 !! "In Progress",
         r.1 !! "Not Started", r.1 !! "Error", r.1 !! "RestoredSize", r.2))
  = Returns (Some 3, Some 1, Some 0, Some 1, Some 1, Some 100, (100 # 3)%Q).
Proof. by vm_compute. Qed.

(** Five files, the store request failing for some of them: five
    requests, and the directory is gone. *)
Example uploader_five_files :
  length (Uploader.requests (Uploader.script Examples.three_objects 5 None)) = 5%nat
  ∧ Uploader.local_dir (Uploader.script Examples.three_objects 5 None) = None.
Proof. by vm_compute. Qed.

(** ** More on the restore worker *)

(** Every way [check_and_restore_object] can end: its outcome together
    with the requests it sent. *)
Lemma check_and_restore_object_cases
    (s3 : S3.client) (bucket key : string) (days : Z) (tier : string) :
  let H := HeadObject bucket key in
  let R := RestoreObject bucket key days tier in
  let F := RestoreObject bucket key days "Standard" in
  Restore.check_and_restore_object s3 bucket key days tier
    ∈ [ (Returns (key, "Not Eligible", None), [H]);
        (Returns (key, "In Progress", Some tier), [H]);
        (Returns (key, "Completed", Some tier), [H]);
        (Returns (key, "Requested", Some tier), [H; R]);
        (Returns (key, "In Progress", Some tier), [H; R]);
        (Returns (key, "Failed", Some tier), [H; R]);
        (Returns (key, "Requested", Some "Standard"), [H; R; F]);
        (Returns (key, "Failed", Some "Standard"), [H; R; F]) ]
  ∨ ∃ msg,
      S3.restore_object s3 0 bucket key days tier = Raises (OtherException msg)
      ∧ Restore.check_and_restore_object s3 bucket key days tier
        = (Raises (OtherException msg), [H; R]).
Proof.
  intros H R F.
  destruct (check_current_status_sent s3 bucket key tier) as [early E].
  destruct early as [r|].
  - left. rewrite (check_and_restore_object_early s3 bucket key days tier r)
      by (by rewrite E).
    revert E. unfold Restore.check_current_status, request.
    destruct (S3.head_object s3 bucket key) as [obj|e]; simpl; [|done].
    repeat (match goal with |- context [if ?b then _ else _] => destruct b end; simpl);
      intros [= <-]; set_solver.
  - rewrite check_and_restore_object_falls_through by (by rewrite E).
    pose proof (try_to_restore_never_not_eligible s3 bucket key days tier) as Hne.
    revert Hne. unfold Restore.try_to_restore, request.
    destruct (S3.restore_object s3 0 bucket key days tier) as [[]|[msg|msg]]; simpl.
    + intros _. left. set_solver.
    + repeat (match goal with |- context [if ?b then _ else _] => destruct b end; simpl);
        try destruct (S3.restore_object s3 1 bucket key days "Standard");
        simpl; intros Hne; try done; left; set_solver.
    + intros _. right. by exists msg.
Qed.

(** X1: whatever the service answers, the worker sends the metadata
    request first and then at most two restore requests for the same
    object: one with the requested tier and, after it, at most one with
    tier Standard. *)
Theorem restore_worker_requests
    (s3 : S3.client) (bucket key : string) (days : Z) (tier : string) :
  (Restore.check_and_restore_object s3 bucket key days tier).2
    ∈ [ [HeadObject bucket key];
        [HeadObject bucket key; RestoreObject bucket key days tier];
        [HeadObject bucket key; RestoreObject bucket key days tier;
         RestoreObject bucket key days "Standard"] ].
Proof.
  destruct (check_and_restore_object_cases s3 bucket key days tier) as [H|(msg & _ & ->)].
  - simpl in H. repeat (apply elem_of_cons in H as [->|H]); simpl; try set_solver.
  - simpl. set_solver.
Qed.

(** X2: a worker that returns gives back the key it was given, one of
    the five statuses [main] prints, and a tier that is unset exactly for
    Not Eligible and otherwise the requested tier or Standard; a worker
    that raises passes on an exception, not a [ClientError], raised by the
    first restore request. *)
Theorem restore_worker_outcome
    (s3 : S3.client) (bucket key : string) (days : Z) (tier : string) :
  match result (Restore.check_and_restore_object s3 bucket key days tier) with
  | Returns (k, status, tier_used) =>
      k = key
      ∧ status ∈ printed_statuses
      ∧ (tier_used = None ↔ status = "Not Eligible")
      ∧ tier_used ∈ [None; Some tier; Some "Standard"]
  | Raises e =>
      (∃ msg, e = OtherException msg)
      ∧ S3.restore_object s3 0 bucket key days tier = Raises e
  end.
Proof.
  destruct (check_and_restore_object_cases s3 bucket key days tier)
    as [H|(msg & Hr & ->)].
  - simpl in H. unfold printed_statuses.
    repeat (apply elem_of_cons in H as [->|H]); simpl;
      try (split; [done|]; split; [set_solver|]; split; [done|set_solver]).
    by apply elem_of_nil in H.
  - simpl. split; [by exists msg|done].
Qed.

(** X3: an object whose metadata shows a storage class other than
    GLACIER, DEEP_ARCHIVE or GLACIER_IR (or none) is Not Eligible with no
    tier, whatever its [Restore] field says, and no restore request is
    sent. *)
Theorem non_archival_is_not_eligible
    (s3 : S3.client) (bucket key : string) (days : Z) (tier : string)
    (obj : head_response) :
  S3.head_object s3 bucket key = Returns obj →
  in_list (StorageClass obj) Restore.glacier_classes = false →
  Restore.check_and_restore_object s3 bucket key days tier
  = (Returns (key, "Not Eligible", None), [HeadObject bucket key]).
Proof.
  intros Hhead Hclass. apply check_and_restore_object_early.
  unfold Restore.check_current_status, request. rewrite Hhead. simpl.
  by rewrite Hclass.
Qed.

Lemma non_archival_is_not_eligible_witness :
  Restore.check_and_restore_object Examples.standard_object "bucket" "images/a" 2 "Bulk"
  = (Returns ("images/a", "Not Eligible", None), [HeadObject "bucket" "images/a"]).
Proof.
  apply (non_archival_is_not_eligible Examples.standard_object "bucket" "images/a" 2 "Bulk"
           {| Restore := Some Restore.ongoing_true; StorageClass := Some "STANDARD";
              ContentLength := Some 100 |});
    reflexivity.
Defined.

(** X4: when the first restore request is accepted the object is
    Requested with the requested tier, and nothing more is sent. *)
Theorem accepted_request_is_requested
    (s3 : S3.client) (bucket key : string) (days : Z) (tier : string) :
  (Restore.check_current_status s3 bucket key tier).1 = Returns None →
  S3.restore_object s3 0 bucket key days tier = Returns () →
  Restore.check_and_restore_object s3 bucket key days tier
  = (Returns (key, "Requested", Some tier),
     [HeadObject bucket key; RestoreObject bucket key days tier]).
Proof.
  intros Hstep1 Hok.
  rewrite check_and_restore_object_falls_through by done.
  unfold Restore.try_to_restore, request. by rewrite Hok.
Qed.

Lemma accepted_request_is_requested_witness :
  Restore.check_and_restore_object Examples.three_objects "bucket" "images/b" 7 "Bulk"
  = (Returns ("images/b", "Requested", Some "Bulk"),
     [HeadObject "bucket" "images/b"; RestoreObject "bucket" "images/b" 7 "Bulk"]).
Proof.
  apply (accepted_request_is_requested Examples.three_objects "bucket" "images/b" 7 "Bulk");
    reflexivity.
Defined.

(** X5: a refusal whose message carries one of the two already in
    progress signatures, and none of the three fallback signatures, leaves
    the object In Progress with the requested tier; no fallback request is
    sent. *)
Theorem already_in_progress_refusal
    (s3 : S3.client) (bucket key : string) (days : Z) (tier error_str : string) :
  (Restore.check_current_status s3 bucket key tier).1 = Returns None →
  S3.restore_object s3 0 bucket key days tier = Raises (ClientError error_str) →
  contains "rate of expedited retrievals" error_str
    || contains "is not allowed" error_str
    || contains "cannot be expedited" error_str = false →
  contains "already in progress" error_str
    || contains "RestoreAlreadyInProgress" error_str = true →
  Restore.check_and_restore_object s3 bucket key days tier
  = (Returns (key, "In Progress", Some tier),
     [HeadObject bucket key; RestoreObject bucket key days tier]).
Proof.
  intros Hstep1 Hrefused Hnofb Hsig.
  rewrite check_and_restore_object_falls_through by done.
  unfold Restore.try_to_restore, request. rewrite Hrefused. simpl.
  rewrite Hnofb.
  destruct (contains "already in progress" error_str); [done|].
  simpl in Hsig. by rewrite Hsig.
Qed.

Lemma already_in_progress_refusal_witness :
  Restore.check_and_restore_object
    (Examples.refusing (ClientError "An error occurred (RestoreAlreadyInProgress) when calling the RestoreObject operation"))
    "bucket" "images/a" 2 "Expedited"
  = (Returns ("images/a", "In Progress", Some "Expedited"),
     [HeadObject "bucket" "images/a"; RestoreObject "bucket" "images/a" 2 "Expedited"]).
Proof.
  apply (already_in_progress_refusal
           (Examples.refusing (ClientError "An error occurred (RestoreAlreadyInProgress) when calling the RestoreObject operation"))
           "bucket" "images/a" 2 "Expedited"
           "An error occurred (RestoreAlreadyInProgress) when calling the RestoreObject operation");
    reflexivity.
Defined.

(** X6: the fallback is taken for each of the three signatures and
    whatever tier was requested: a refusal whose message contains is not
    allowed or cannot be expedited is followed by exactly one request for
    Standard, which decides between Requested and Failed. *)
Theorem disallowed_tier_falls_back_once
    (s3 : S3.client) (bucket key : string) (days : Z) (tier error_str : string) :
  (Restore.check_current_status s3 bucket key tier).1 = Returns None →
  S3.restore_object s3 0 bucket key days tier = Raises (ClientError error_str) →
  contains "is not allowed" error_str || contains "cannot be expedited" error_str = true →
  Restore.check_and_restore_object s3 bucket key days tier =
    (match S3.restore_object s3 1 bucket key days "Standard" with
     | Returns _ => Returns (key, "Requested", Some "Standard")
     | Raises _ => Returns (key, "Failed", Some "Standard")
     end,
     [HeadObject bucket key;
      RestoreObject bucket key days tier;
      RestoreObject bucket key days "Standard"]).
Proof.
  intros Hstep1 Hrefused Hsig.
  rewrite check_and_restore_object_falls_through by done.
  rewrite (try_to_restore_fallback _ _ _ _ _ error_str); [done..|].
  apply orb_true_iff in Hsig as [->| ->]; by rewrite ?orb_true_r.
Qed.

Lemma disallowed_tier_falls_back_once_witness :
  Restore.check_and_restore_object
    (Examples.refusing_once (ClientError "The retrieval option cannot be expedited for this object"))
    "bucket" "images/a" 2 "Standard"
  = (Returns ("images/a", "Requested", Some "Standard"),
     [HeadObject "bucket" "images/a";
      RestoreObject "bucket" "images/a" 2 "Standard";
      RestoreObject "bucket" "images/a" 2 "Standard"]).
Proof.
  apply (disallowed_tier_falls_back_once
           (Examples.refusing_once (ClientError "The retrieval option cannot be expedited for this object"))
           "bucket" "images/a" 2 "Standard"
           "The retrieval option cannot be expedited for this object");
    reflexivity.
Defined.

(** ** The listings *)

Section Listings.

(** X7: which entries the Status Scanner counts: those of the listing
    whose key is not the prefix itself, whose size is not 0 (a missing
    size counts as 0) and that carry a storage class. *)
Theorem elem_of_list_objects
    (pages : list (option (list list_entry))) (prefix key : string) (size : Z) :
  (key, size) ∈ RestoreStatus.list_objects pages prefix
  ↔ ∃ contents obj,
      Some contents ∈ pages ∧ obj ∈ contents
      ∧ Key obj = key ∧ default 0 (Size obj) = size
      ∧ key ≠ prefix ∧ size ≠ 0 ∧ is_Some (EntryStorageClass obj).
Proof.
  unfold RestoreStatus.list_objects. rewrite list_elem_of_bind. split.
  - intros (page & Hin & Hpage). apply list_elem_of_bind in Hin as (obj & Hin & Hobj).
    destruct page as [contents|]; [|by apply elem_of_nil in Hobj].
    exists contents, obj. simpl in Hobj.
    destruct (String.eqb (Key obj) prefix) eqn:Ek; [by apply elem_of_nil in Hin|].
    destruct (default 0 (Size obj) =? 0) eqn:Es; [by apply elem_of_nil in Hin|].
    destruct (bool_decide (is_Some (EntryStorageClass obj))) eqn:Ec;
      [|by apply elem_of_nil in Hin].
    simpl in Hin. apply list_elem_of_singleton in Hin as [= -> ->].
    apply String.eqb_neq in Ek. apply Z.eqb_neq in Es. apply bool_decide_eq_true in Ec.
    done.
  - intros (contents & obj & Hpage & Hobj & <- & <- & Hk & Hs & Hc).
    exists (Some contents). split; [|done].
    apply list_elem_of_bind. exists obj. split; [|done].
    apply String.eqb_neq in Hk as ->. apply Z.eqb_neq in Hs as ->.
    rewrite bool_decide_eq_true_2 by done. simpl. by apply list_elem_of_singleton.
Qed.

End Listings.

(** X8: which entries the Restore Requester takes up: those of the
    listing whose key is not the prefix itself, whose size is not 0 and
    whose storage class is GLACIER, DEEP_ARCHIVE or GLACIER_IR. An entry
    of any other class, such as STANDARD, is never a candidate. *)
Theorem elem_of_list_glacier_objects
    (s3 : S3.client) (bucket prefix key : string) (size : Z) :
  (key, size) ∈ Restore.list_glacier_objects s3 bucket prefix
  ↔ ∃ contents obj,
      Some contents ∈ S3.list_objects_v2 s3 bucket prefix ∧ obj ∈ contents
      ∧ Key obj = key ∧ default 0 (Size obj) = size
      ∧ key ≠ prefix ∧ size ≠ 0
      ∧ ∃ class, EntryStorageClass obj = Some class ∧ class ∈ Restore.glacier_classes.
Proof.
  unfold Restore.list_glacier_objects. rewrite list_elem_of_bind. split.
  - intros (page & Hin & Hpage). apply list_elem_of_bind in Hin as (obj & Hin & Hobj).
    destruct page as [contents|]; [|by apply elem_of_nil in Hobj].
    exists contents, obj. simpl in Hobj.
    destruct (String.eqb (Key obj) prefix) eqn:Ek; [by apply elem_of_nil in Hin|].
    destruct (default 0 (Size obj) =? 0) eqn:Es; [by apply elem_of_nil in Hin|].
    destruct (bool_decide (is_Some (EntryStorageClass obj))) eqn:Ec;
      [|by apply elem_of_nil in Hin].
    simpl in Hin.
    destruct (EntryStorageClass obj) as [class|] eqn:Eclass;
      [|by apply elem_of_nil in Hin].
    destruct (in_list (Some class) Restore.glacier_classes) eqn:Ein;
      [|by apply elem_of_nil in Hin].
    apply list_elem_of_singleton in Hin as [= -> ->].
    apply String.eqb_neq in Ek. apply Z.eqb_neq in Es.
    do 6 (split; [done|]). exists class. split; [done|].
    unfold in_list in Ein. apply existsb_exists in Ein as (c & Hc & ->%String.eqb_eq).
    by apply list_elem_of_In.
  - intros (contents & obj & Hpage & Hobj & <- & <- & Hk & Hs & class & Hclass & Hin).
    exists (Some contents). split; [|done].
    apply list_elem_of_bind. exists obj. split; [|done].
    apply String.eqb_neq in Hk as ->. apply Z.eqb_neq in Hs as ->.
    rewrite Hclass. rewrite bool_decide_eq_true_2 by done.
    assert (in_list (Some class) Restore.glacier_classes = true) as ->.
    { apply existsb_exists. exists class. split; [by apply list_elem_of_In|].
      apply String.eqb_refl. }
    simpl. by apply list_elem_of_singleton.
Qed.

(** X9: for one and the same listing, the candidates of the Restore
    Requester are among the objects the Status Scanner counts, in the same
    order: the requester's list is the scanner's list with some entries
    left out. *)
Theorem glacier_objects_sublist_of_scanned (s3 : S3.client) (bucket prefix : string) :
  sublist (Restore.list_glacier_objects s3 bucket prefix)
          (RestoreStatus.list_objects (S3.list_objects_v2 s3 bucket prefix) prefix).
Proof.
  unfold Restore.list_glacier_objects, RestoreStatus.list_objects.
  induction (S3.list_objects_v2 s3 bucket prefix) as [|page pages IH]; [constructor|].
  simpl. apply sublist_app; [|done].
  induction (default [] page) as [|obj contents IHc]; [constructor|].
  simpl. apply sublist_app; [|done].
  repeat (match goal with |- context [if ?b then _ else _] => destruct b end);
    by repeat constructor.
Qed.

(** ** More on [main] of glacier-restore.py *)

Section RequesterReport.

Import Restore.

Lemma counter_iadd_comm (a b : string) (c : gmap string Z) :
  counter_iadd a 1 (counter_iadd b 1 c) = counter_iadd b 1 (counter_iadd a 1 c).
Proof.
  apply map_eq. intros k. unfold counter_iadd.
  destruct (decide (a = b)) as [->|]; [done|].
  destruct (decide (k = a)) as [Ha|Ha], (decide (k = b)) as [Hb|Hb];
    simplify_map_eq; try done; f_equal; lia.
Qed.

(** Futures that all hold results are collected to the same counters in
    any order. *)
Lemma restore_collect_perm (done done' : list (run (string * string * option string))) :
  done ≡ₚ done' → Forall returned done →
  ∀ status_counts tier_usage,
    collect done status_counts tier_usage = collect done' status_counts tier_usage.
Proof.
  induction 1 as [|f l l' Hperm IH|f g l|l l' l'' H1 IH1 H2 IH2]; intros Hall sc tu.
  - done.
  - apply Forall_cons in Hall as [[[[k st] t] Hf] Hall].
    destruct f as [o sent]. simpl in Hf. subst o. simpl. by apply IH.
  - apply Forall_cons in Hall as [[[[kg sg] tg] Hg] Hall].
    apply Forall_cons in Hall as [[[[kf sf] tf] Hf] Hall].
    destruct f as [o1 sent1], g as [o2 sent2]. simpl in Hf, Hg. subst o1 o2. simpl.
    rewrite (counter_iadd_comm sf sg).
    destruct (truthy tf), (truthy tg); try done.
    by rewrite (counter_iadd_comm (default EmptyString tf) (default EmptyString tg)).
  - rewrite IH1 by done. apply IH2. by rewrite <- H1.
Qed.

(** The tier counter grows by one for each future that holds a tier. *)
Lemma restore_collect_tiers (done : list (run (string * string * option string))) :
  ∀ status_counts tier_usage status_counts' tier_usage',
    collect done status_counts tier_usage = Returns (status_counts', tier_usage') →
    sum_values tier_usage' = sum_values tier_usage + count_tiered done.
Proof.
  induction done as [|[[[[key st] tier_used]|e] sent] done IH];
    intros sc tu sc' tu'; simpl; [|intros E|done].
  - intros [= <- <-]. unfold count_tiered, sum_with; simpl. lia.
  - apply IH in E. rewrite E.
    unfold count_tiered, sum_with, has_tier; simpl.
    destruct (truthy tier_used); [|lia].
    rewrite sum_values_counter_iadd. lia.
Qed.

(** A worker's result is counted under exactly one printed status, and
    holds a tier unless it is Not Eligible. *)
Lemma worker_future_indicators
    (s3 : S3.client) (bucket key : string) (days : Z) (tier : string) :
  let f := check_and_restore_object s3 bucket key days tier in
  returned f →
  sum_with (λ status, if has_status status f then 1 else 0) printed_statuses = 1
  ∧ (tier ≠ EmptyString →
     (if has_tier f then 1 else 0) = 1 - (if has_status "Not Eligible" f then 1 else 0)).
Proof.
  intros f [r Hr]. subst f.
  destruct (check_and_restore_object_cases s3 bucket key days tier)
    as [H|(msg & _ & E)]; [|by rewrite E in Hr].
  clear Hr. simpl in H.
  repeat (apply elem_of_cons in H as [->|H]); [..|by apply elem_of_nil in H];
    (split; [done|]); intros Htier;
    unfold has_tier, has_status; simpl; by destruct tier.
Qed.

End RequesterReport.

Section RequesterTotals.

Import Restore.

Context (s3 : S3.client) (args : Args).

Let worker (o : string * Z) :=
  check_and_restore_object s3 (bucket args) o.1 (days args) (tier args).

Lemma printed_counts_total (objects : list (string * Z)) :
  Forall returned (worker <$> objects) →
  sum_with (λ status, count_status status (worker <$> objects)) printed_statuses
  = Z.of_nat (length objects).
Proof.
  induction objects as [|o os IH]; [done|].
  rewrite fmap_cons, length_cons, Nat2Z.inj_succ. intros [Ho Hos]%Forall_cons.
  specialize (IH Hos).
  destruct (worker_future_indicators s3 (bucket args) o.1 (days args) (tier args) Ho)
    as [Hone _].
  fold (worker o) in Hone.
  unfold printed_statuses in *.
  unfold sum_with at 1. unfold sum_with at 1 in IH. unfold sum_with at 1 in Hone.
  cbn [foldr] in *. rewrite !count_status_cons. lia.
Qed.

Lemma tiered_counts_total (objects : list (string * Z)) :
  tier args ≠ EmptyString →
  Forall returned (worker <$> objects) →
  count_tiered (worker <$> objects)
  = Z.of_nat (length objects) - count_status "Not Eligible" (worker <$> objects).
Proof.
  intros Htier. induction objects as [|o os IH]; [done|].
  rewrite fmap_cons, length_cons, Nat2Z.inj_succ. intros [Ho Hos]%Forall_cons.
  specialize (IH Hos).
  destruct (worker_future_indicators s3 (bucket args) o.1 (days args) (tier args) Ho)
    as [_ Htiered].
  specialize (Htiered Htier). fold (worker o) in Htiered.
  rewrite count_status_cons.
  unfold count_tiered, sum_with in *. simpl. lia.
Qed.

End RequesterTotals.

(** A run that reaches its summary had a positive number of threads. *)
Lemma main_returns_threads_positive
    (as_completed : list (run (string * string * option string))
                    → list (run (string * string * option string)))
    (s3 : S3.client) (args : Restore.Args) (report : Restore.Report) :
  Restore.main as_completed s3 args = Returns report → 0 < Restore.threads args.
Proof.
  unfold Restore.main, ThreadPoolExecutor.
  destruct (Z.leb_spec (Restore.threads args) 0); [done|by intros _].
Qed.

(** A run without a positive number of threads stops at the pool. *)
Lemma main_without_threads
    (as_completed : list (run (string * string * option string))
                    → list (run (string * string * option string)))
    (s3 : S3.client) (args : Restore.Args) :
  Restore.threads args ≤ 0 →
  Restore.main as_completed s3 args
  = Raises (OtherException "max_workers must be greater than 0").
Proof.
  intros H. unfold Restore.main. by rewrite (ThreadPoolExecutor_not_positive _ H).
Qed.

(** X10: when [main] reaches its summary, the five status lines it
    prints account for every object scanned: their counts add up to the
    number of objects. *)
Theorem printed_statuses_cover_all_objects
    (as_completed : list (run (string * string * option string))
                    → list (run (string * string * option string)))
    (s3 : S3.client) (args : Restore.Args) (report : Restore.Report) :
  (∀ futures, as_completed futures ≡ₚ futures) →
  Restore.main as_completed s3 args = Returns report →
  sum_with (counter_get (Restore.status_counts report)) printed_statuses
  = Restore.objects_scanned report.
Proof.
  intros Hperm Hmain.
  pose proof (main_counts as_completed Hperm s3 args
                (main_returns_threads_positive _ _ _ _ Hmain)) as H.
  rewrite Hmain in H.
  destruct H as (Hn & _ & Hcount & Hall).
  rewrite Hn, <- (printed_counts_total s3 args _ Hall).
  unfold sum_with, printed_statuses. simpl. by rewrite !Hcount.
Qed.

Lemma printed_statuses_cover_all_objects_witness :
  sum_with (counter_get
              (Restore.status_counts
                 {| Restore.objects_scanned := 3; Restore.total_size := 600;
                    Restore.status_counts :=
                      counter_iadd "Completed" 1
                        (counter_iadd "Requested" 1 (counter_iadd "Requested" 1 ∅));
                    Restore.tier_usage := counter_iadd "Expedited" 3 ∅ |}))
           printed_statuses
  = 3.
Proof.
  apply (printed_statuses_cover_all_objects reverse Examples.three_objects
           Examples.restore_args).
  - intros futures. apply reverse_Permutation.
  - by vm_compute.
Defined.

(** X11: when [main] reaches its summary and the requested tier is not
    the empty string, the tier usage counts add up to the number of
    objects that are not Not Eligible: objects found In Progress,
    Completed or Failed are counted under a tier as well as the Requested
    ones. *)
Theorem tier_usage_counts_all_but_not_eligible
    (as_completed : list (run (string * string * option string))
                    → list (run (string * string * option string)))
    (s3 : S3.client) (args : Restore.Args) (report : Restore.Report) :
  (∀ futures, as_completed futures ≡ₚ futures) →
  Restore.tier args ≠ EmptyString →
  Restore.main as_completed s3 args = Returns report →
  sum_values (Restore.tier_usage report)
  = Restore.objects_scanned report
    - counter_get (Restore.status_counts report) "Not Eligible".
Proof.
  intros Hperm Htier Hmain.
  pose proof (main_returns_threads_positive _ _ _ _ Hmain) as Hthreads.
  pose proof (main_counts as_completed Hperm s3 args Hthreads) as H. rewrite Hmain in H.
  destruct H as (Hn & _ & Hcount & Hall).
  rewrite Hn, Hcount, <- (tiered_counts_total s3 args _ Htier Hall).
  revert Hmain. unfold Restore.main.
  rewrite (ThreadPoolExecutor_positive _ Hthreads). simpl.
  destruct (Restore.collect _ ∅ ∅) as [[sc tu]|e] eqn:E; simpl; [|done].
  intros [= <-]. simpl.
  apply restore_collect_tiers in E. rewrite E.
  unfold count_tiered. rewrite (sum_with_perm _ _ _ (Hperm _)).
  by unfold sum_values; rewrite map_fold_empty.
Qed.

Lemma tier_usage_counts_all_but_not_eligible_witness :
  sum_values
    (Restore.tier_usage
       {| Restore.objects_scanned := 3; Restore.total_size := 600;
          Restore.status_counts :=
            counter_iadd "Completed" 1
              (counter_iadd "Requested" 1 (counter_iadd "Requested" 1 ∅));
          Restore.tier_usage := counter_iadd "Expedited" 3 ∅ |})
  = 3 - counter_get
          (counter_iadd "Completed" 1
             (counter_iadd "Requested" 1 (counter_iadd "Requested" 1 ∅)))
          "Not Eligible".
Proof.
  apply (tier_usage_counts_all_but_not_eligible reverse Examples.three_objects
           Examples.restore_args).
  - intros futures. apply reverse_Permutation.
  - discriminate.
  - by vm_compute.
Defined.

(** X12: the counts in the report of [main] do not depend on the order
    in which the pool completes the futures: two runs over the same
    service either both reach the summary, with the same number of
    objects, the same total size and the same count for every status and
    every tier, or both stop on an exception. *)
Theorem counts_independent_of_completion_order
    (order1 order2 : list (run (string * string * option string))
                     → list (run (string * string * option string)))
    (s3 : S3.client) (args : Restore.Args) :
  (∀ futures, order1 futures ≡ₚ futures) →
  (∀ futures, order2 futures ≡ₚ futures) →
  match Restore.main order1 s3 args, Restore.main order2 s3 args with
  | Returns report1, Returns report2 =>
      Restore.objects_scanned report1 = Restore.objects_scanned report2
      ∧ Restore.total_size report1 = Restore.total_size report2
      ∧ (∀ status, counter_get (Restore.status_counts report1) status
                   = counter_get (Restore.status_counts report2) status)
      ∧ (∀ tier, counter_get (Restore.tier_usage report1) tier
                 = counter_get (Restore.tier_usage report2) tier)
  | Raises _, Raises _ => True
  | _, _ => False
  end.
Proof.
  intros H1 H2.
  destruct (Z.le_gt_cases (Restore.threads args) 0) as [Hno|Hthreads].
  { by rewrite !main_without_threads. }
  pose proof (main_counts order1 H1 s3 args Hthreads) as M1.
  pose proof (main_counts order2 H2 s3 args Hthreads) as M2.
  assert (∀ o e,
            result (Restore.check_and_restore_object s3 (Restore.bucket args) o.1
                      (Restore.days args) (Restore.tier args)) = Raises e →
            o ∈ Restore.list_glacier_objects s3 (Restore.bucket args) (Restore.prefix args) →
            Forall returned
              ((λ o, Restore.check_and_restore_object s3 (Restore.bucket args) o.1
                       (Restore.days args) (Restore.tier args))
                 <$> Restore.list_glacier_objects s3 (Restore.bucket args)
                       (Restore.prefix args)) →
            False) as Hclash.
  { intros o e He Ho Hall. rewrite Forall_fmap, Forall_forall in Hall.
    destruct (Hall o Ho) as [r Hr]. simpl in Hr. congruence. }
  destruct (Restore.main order1 s3 args) as [r1|e1] eqn:E1,
           (Restore.main order2 s3 args) as [r2|e2] eqn:E2; try done.
  - destruct M1 as (_ & _ & _ & Hall).
    assert (r1 = r2) as ->; [|done].
    revert E1 E2. unfold Restore.main.
    rewrite (ThreadPoolExecutor_positive _ Hthreads). simpl.
    match goal with
    | |- context [order1 ?fs] =>
        rewrite (restore_collect_perm (order1 fs) (order2 fs));
          [congruence|by rewrite H1, H2|by rewrite H1]
    end.
  - destruct M1 as (_ & _ & _ & Hall), M2 as (o & Ho & He). by eapply Hclash.
  - destruct M2 as (_ & _ & _ & Hall), M1 as (o & Ho & He). by eapply Hclash.
Qed.

Lemma counts_independent_of_completion_order_witness :
  match Restore.main reverse Examples.three_objects Examples.restore_args,
        Restore.main id Examples.three_objects Examples.restore_args with
  | Returns report1, Returns report2 =>
      Restore.objects_scanned report1 = Restore.objects_scanned report2
      ∧ Restore.total_size report1 = Restore.total_size report2
      ∧ (∀ status, counter_get (Restore.status_counts report1) status
                   = counter_get (Restore.status_counts report2) status)
      ∧ (∀ tier, counter_get (Restore.tier_usage report1) tier
                 = counter_get (Restore.tier_usage report2) tier)
  | Raises _, Raises _ => True
  | _, _ => False
  end.
Proof.
  apply (counts_independent_of_completion_order reverse id Examples.three_objects
           Examples.restore_args).
  - intros futures. apply reverse_Permutation.
  - intros futures. reflexivity.
Defined.

(** X13: with a positive number of threads, when the listing holds no
    archival object under the prefix (no contents at all, or objects of
    other classes only), [main] reaches its summary with zero objects,
    zero bytes and empty counters. *)
Theorem no_candidates_empty_report
    (as_completed : list (run (string * string * option string))
                    → list (run (string * string * option string)))
    (s3 : S3.client) (args : Restore.Args) :
  (∀ futures, as_completed futures ≡ₚ futures) →
  0 < Restore.threads args →
  Restore.list_glacier_objects s3 (Restore.bucket args) (Restore.prefix args) = [] →
  Restore.main as_completed s3 args
  = Returns {| Restore.objects_scanned := 0; Restore.total_size := 0;
               Restore.status_counts := ∅; Restore.tier_usage := ∅ |}.
Proof.
  intros Hperm Hthreads Hempty. unfold Restore.main.
  rewrite (ThreadPoolExecutor_positive _ Hthreads), Hempty. simpl.
  by rewrite (proj1 (Permutation_nil_r _) (Hperm [])).
Qed.

Lemma no_candidates_empty_report_witness :
  Restore.main reverse Examples.standard_object Examples.restore_args
  = Returns {| Restore.objects_scanned := 0; Restore.total_size := 0;
               Restore.status_counts := ∅; Restore.tier_usage := ∅ |}.
Proof.
  apply (no_candidates_empty_report reverse Examples.standard_object Examples.restore_args).
  - intros futures. apply reverse_Permutation.
  - reflexivity.
  - reflexivity.
Defined.

(** ** More on the Status Scanner *)

Section ScannerOrder.

Import RestoreStatus.

(** The collecting loop touches only the status keys of the results it
    reads and RestoredSize. *)
Lemma collect_frame (done : list (run (string * string * Z))) (k : string) :
  k ≠ "RestoredSize" →
  Forall (λ f, has_status k f = false) done →
  ∀ summary summary',
    collect done summary = Returns summary' → summary' !! k = summary !! k.
Proof.
  intros Hk. induction 1 as [|[[[[key st] b]|e] sent] done Hf _ IH];
    intros summary summary'; simpl; [by intros [= ->]| |done].
  unfold has_status in Hf. simpl in Hf. apply String.eqb_neq in Hf.
  unfold iadd, getitem.
  destruct (summary !! st) as [x|]; simpl; [|done].
  destruct (String.eqb st "Completed"); simpl.
  - destruct (<[st:=x + 1]> summary !! "RestoredSize") as [y|]; simpl; [|done].
    intros E. apply IH in E. by rewrite E, !lookup_insert_ne.
  - intros E. apply IH in E. by rewrite E, lookup_insert_ne.
Qed.

Context (s3 : S3.client) (args : Args).

Let objects := list_objects (S3.list_objects_v2 s3 (bucket args) (prefix args)) (prefix args).
Let futures := (λ o, check_restore_status s3 (bucket args) o.1) <$> objects.

(** A key that is not one of the four statuses is the status of no future. *)
Lemma other_keys_untouched (k : string) :
  k ∉ statuses → Forall (λ f, has_status k f = false) futures.
Proof.
  intros Hk. apply Forall_fmap, Forall_forall. intros o _. simpl.
  destruct (check_restore_status_returns s3 (bucket args) o.1) as (st & sz & -> & Hst).
  unfold has_status. simpl. apply String.eqb_neq. by intros ->.
Qed.

End ScannerOrder.

(** A scan without a positive number of threads stops at the pool. *)
Lemma summarize_without_threads
    (as_completed : list (run (string * string * Z)) → list (run (string * string * Z)))
    (s3 : S3.client) (args : RestoreStatus.Args) :
  RestoreStatus.threads args ≤ 0 →
  RestoreStatus.summarize_restore_status as_completed s3 args
  = Raises (OtherException "max_workers must be greater than 0").
Proof.
  intros H. unfold RestoreStatus.summarize_restore_status.
  by rewrite (ThreadPoolExecutor_not_positive _ H).
Qed.

(** X14: the summary of the Status Scanner does not depend on the order
    in which the pool completes the futures: two runs over the same
    service return the same dictionary and the same percentage. *)
Theorem summary_independent_of_completion_order
    (order1 order2 : list (run (string * string * Z)) → list (run (string * string * Z)))
    (s3 : S3.client) (args : RestoreStatus.Args) :
  (∀ futures, order1 futures ≡ₚ futures) →
  (∀ futures, order2 futures ≡ₚ futures) →
  RestoreStatus.summarize_restore_status order1 s3 args
  = RestoreStatus.summarize_restore_status order2 s3 args.
Proof.
  intros H1 H2.
  destruct (Z.le_gt_cases (RestoreStatus.threads args) 0) as [Hno|Hthreads].
  { by rewrite !summarize_without_threads. }
  destruct (summarize_restore_status_returns order1 H1 s3 args Hthreads)
    as (m1 & p1 & E1 & Hp1 & Ht1 & Hs1 & Hc1 & Hi1 & Hn1 & He1 & Hr1).
  destruct (summarize_restore_status_returns order2 H2 s3 args Hthreads)
    as (m2 & p2 & E2 & Hp2 & Ht2 & Hs2 & Hc2 & Hi2 & Hn2 & He2 & Hr2).
  rewrite E1, E2.
  assert (m1 = m2) as Hm; [|subst m2; congruence].
  apply map_eq. intros k.
  destruct (decide (k ∈ ["Total"; "TotalSize"; "RestoredSize"] ++ RestoreStatus.statuses))
    as [Hin|Hout].
  { unfold RestoreStatus.statuses in Hin. simpl in Hin.
    repeat (apply elem_of_cons in Hin as [->|Hin]); [congruence..|].
    by apply elem_of_nil in Hin. }
  apply not_elem_of_app in Hout as [Hout Hst].
  assert (k ≠ "RestoredSize") as Hk by set_solver.
  revert E1 E2. unfold RestoreStatus.summarize_restore_status.
  rewrite (ThreadPoolExecutor_positive _ Hthreads). simpl.
  match goal with
  | |- context [RestoreStatus.collect (order1 ?fs) ?start] =>
      destruct (RestoreStatus.collect (order1 fs) start) as [c1|] eqn:C1; simpl; [|done];
      destruct (RestoreStatus.collect (order2 fs) start) as [c2|] eqn:C2; simpl; [|done];
      apply (collect_frame _ k Hk) in C1; [|rewrite H1; by apply other_keys_untouched];
      apply (collect_frame _ k Hk) in C2; [|rewrite H2; by apply other_keys_untouched]
  end.
  destruct (RestoreStatus.percent_complete c1); simpl; [|done].
  destruct (RestoreStatus.percent_complete c2); simpl; [|done].
  intros [= -> _] [= -> _]. congruence.
Qed.

Lemma summary_independent_of_completion_order_witness :
  RestoreStatus.summarize_restore_status reverse Examples.three_objects Examples.status_args
  = RestoreStatus.summarize_restore_status id Examples.three_objects Examples.status_args.
Proof.
  apply (summary_independent_of_completion_order reverse id Examples.three_objects
           Examples.status_args).
  - intros futures. apply reverse_Permutation.
  - intros futures. reflexivity.
Defined.




(** X16: the Status Scanner's worker sends exactly one request and
    always returns; it answers Error, with 0 bytes, exactly when the
    metadata request raised. *)
Theorem scanner_error_iff_metadata_fails (s3 : S3.client) (bucket key : string) :
  (RestoreStatus.check_restore_status s3 bucket key).2 = [HeadObject bucket key]
  ∧ (∃ status size,
       result (RestoreStatus.check_restore_status s3 bucket key)
       = Returns (key, status, size)
       ∧ (status = "Error" ↔ ∃ e, S3.head_object s3 bucket key = Raises e)
       ∧ (status = "Error" → size = 0)).
Proof.
  unfold RestoreStatus.check_restore_status, request, result.
  destruct (S3.head_object s3 bucket key) as [obj|e]; simpl.
  - repeat (match goal with |- context [if ?b then _ else _] => destruct b end; simpl);
      (split; [done|]); do 2 eexists; (split; [reflexivity|]);
      (split; [|done]); (split; [done|by intros [? ?]]).
  - split; [done|]. do 2 eexists. split; [reflexivity|].
    split; [|done]. split; [by exists e|done].
Qed.

(** ** More on the Uploader *)

Section UploaderRuns.

Import Uploader.

(** The requests of a run, for any initial state of the directory: one
    per entry the directory holds after the writing loop. *)
Lemma requests_of_run (s3 : S3.client) (NUM_FILES : nat) (d : directory) :
  ∃ entries : gset string,
    generate NUM_FILES d = Some entries
    ∧ (∀ name, name ∈ entries ↔ name ∈ default ∅ d ∨ name ∈ filename <$> seq 1 NUM_FILES)
    ∧ requests (script s3 NUM_FILES d)
      = (λ name, UploadFile (path_join LOCAL_DIR name) BUCKET_NAME
                   (PREFIX +:+ basename (path_join LOCAL_DIR name)) "GLACIER")
        <$> elements entries
    ∧ local_dir (script s3 NUM_FILES d) = None
    ∧ main_thread (script s3 NUM_FILES d) = Returns ().
Proof.
  eexists. split; [reflexivity|]. split; [intros name; apply elem_of_written|].
  unfold script, requests. simpl.
  by rewrite requests_of_workers, <- list_fmap_compose.
Qed.

End UploaderRuns.

(** X17: from a fresh local directory no two store requests of a run
    name the same key, so no upload overwrites another. *)
Theorem upload_keys_are_distinct
    (s3 : S3.client) (NUM_FILES : nat) (d : Uploader.directory) :
  d = None ∨ d = Some ∅ →
  NoDup (call_key <$> Uploader.requests (Uploader.script s3 NUM_FILES d)).
Proof.
  intros Hfresh.
  destruct (requests_of_run s3 NUM_FILES d) as (entries & _ & Hin & -> & _).
  assert (elements entries ≡ₚ Uploader.filename <$> seq 1 NUM_FILES) as ->.
  { apply NoDup_Permutation;
      [apply NoDup_elements|apply filenames_NoDup, NoDup_seq|].
    intros x. rewrite elem_of_elements, Hin. destruct Hfresh as [->| ->]; set_solver. }
  rewrite <- !list_fmap_compose.
  apply NoDup_fmap_2; [|apply NoDup_seq].
  intros i j. unfold compose, call_key.
  rewrite !path_join_filename.
  rewrite !(basename_join Uploader.LOCAL_DIR _ (no_slash_in_filename _)).
  intros H. by apply (inj _), filename_inj in H.
Qed.

Lemma upload_keys_are_distinct_witness :
  NoDup (call_key <$> Uploader.requests (Uploader.script Examples.three_objects 5 (Some ∅))).
Proof.
  apply (upload_keys_are_distinct Examples.three_objects 5 (Some ∅)).
  by right.
Defined.



Section FileNames.

Import Uploader.

Lemma zeros_length (k : nat) : String.length (zeros k) = k.
Proof. induction k; simpl; by rewrite ?IHk. Qed.

Lemma format_04d_width_below_10000 :
  forallb (λ i, Nat.eqb (String.length (format_04d i)) 4) (seq 0 (100 * 100)) = true.
Proof. by vm_compute. Qed.

End FileNames.

(** X19: the number in a file name is written with at least four
    characters, with exactly four up to 9999, and reading the characters
    as a decimal numeral gives the number back. *)
Theorem format_04d_round_trip (i : nat) :
  (4 ≤ String.length (Uploader.format_04d i))%nat
  ∧ ((i < 100 * 100)%nat → String.length (Uploader.format_04d i) = 4%nat)
  ∧ Uploader.parse_decimal (Uploader.format_04d i) = Some i.
Proof.
  split; [|split].
  - unfold Uploader.format_04d. rewrite append_length, zeros_length. lia.
  - intros Hi.
    pose proof format_04d_width_below_10000 as H.
    rewrite forallb_forall in H.
    apply Nat.eqb_eq, H, in_seq. lia.
  - apply parse_decimal_format.
Qed.

(** X20: with a positive number of threads, when nothing under the
    prefix passes the listing loop, the Status Scanner returns with every
    counter at 0 and a percentage of 0. *)
Theorem nothing_listed_empty_summary
    (as_completed : list (run (string * string * Z)) → list (run (string * string * Z)))
    (s3 : S3.client) (args : RestoreStatus.Args) :
  (∀ futures, as_completed futures ≡ₚ futures) →
  0 < RestoreStatus.threads args →
  RestoreStatus.list_objects
    (S3.list_objects_v2 s3 (RestoreStatus.bucket args) (RestoreStatus.prefix args))
    (RestoreStatus.prefix args) = [] →
  RestoreStatus.summarize_restore_status as_completed s3 args
  = Returns (RestoreStatus.initial_summary, inject_Z 0).
Proof.
  intros Hperm Hthreads Hempty. unfold RestoreStatus.summarize_restore_status.
  rewrite (ThreadPoolExecutor_positive _ Hthreads), Hempty. simpl.
  rewrite (proj1 (Permutation_nil_r _) (Hperm [])). simpl.
  rewrite !insert_id by done. by vm_compute.
Qed.

Lemma nothing_listed_empty_summary_witness :
  RestoreStatus.summarize_restore_status reverse Examples.empty_bucket Examples.status_args
  = Returns (RestoreStatus.initial_summary, inject_Z 0).
Proof.
  apply (nothing_listed_empty_summary reverse Examples.empty_bucket Examples.status_args).
  - intros futures. apply reverse_Permutation.
  - reflexivity.
  - reflexivity.
Defined.

(** A listing with mixed entries: the scanner keeps the three sized
    entries that carry a class, the requester the two archival ones. *)
Example mixed_listing_candidates :
  RestoreStatus.list_objects
    (S3.list_objects_v2 Examples.mixed_listing "bucket" "images/") "images/"
  = [("images/a", 10); ("images/b", 20); ("images/c", 30)]
  ∧ Restore.list_glacier_objects Examples.mixed_listing "bucket" "images/"
    = [("images/a", 10); ("images/c", 30)].
Proof. by vm_compute. Qed.
